(** * Writing-agent example scripts: a shallow embedding

    The three scripts under [examples/] drive a remote agent server through
    the [letta_client] SDK.  Everything they do is: build a client, create an
    agent with a few memory blocks, format a prompt, send it, read the last
    message of the reply, and overwrite or read one memory block.

    The embedding keeps the scripts' control flow: Python exceptions are an
    [outcome], object attributes and the outside world (the SDK calls issued
    so far, standard output, the process environment, the wall clock) are
    threaded through a state-and-exception monad [Py], and the remote server
    is an arbitrary oracle [Server] that sees the history of calls. *)

From stdpp Require Import base option list strings pretty gmap.

Set Default Proof Using "Type".

(** ** Python exceptions and outcomes *)

(** The subclasses of [Exception] that occur.  [ApiError] stands for whatever
    the client library raises on a network, authentication or server error;
    a server oracle may also answer with any of the other exceptions. *)
Inductive exn : Type :=
  | ValueError (msg : string)
  | KeyError (key : string)
  | IndexError (msg : string)
  | AttributeError (msg : string)
  | ApiError (msg : string).

(** The double quote, and a hexadecimal digit. *)
Definition dquote : string := String (Ascii.ascii_of_nat 34) "".

Definition hex_digit (n : nat) : string :=
  default "?" (["0"; "1"; "2"; "3"; "4"; "5"; "6"; "7"; "8"; "9";
                "a"; "b"; "c"; "d"; "e"; "f"] !! n).

(** [repr(s)] of a string: single quotes unless the string holds a single
    quote and no double quote; the quote in use and the backslash are
    escaped, tab, line feed and carriage return are written with their
    letters, other control characters in hexadecimal. The bytes of characters
    beyond ASCII are kept, as they are for every printable character. *)
Fixpoint has_char (n : nat) (s : string) : bool :=
  match s with
  | EmptyString => false
  | String c s' => bool_decide (Ascii.nat_of_ascii c = n) || has_char n s'
  end.

Definition repr_char (quote : nat) (c : Ascii.ascii) : string :=
  let n := Ascii.nat_of_ascii c in
  if bool_decide (n = quote) || bool_decide (n = 92) then "\" +:+ String c ""
  else if bool_decide (n = 9) then "\t"
  else if bool_decide (n = 10) then "\n"
  else if bool_decide (n = 13) then "\r"
  else if bool_decide (n < 32) || bool_decide (n = 127)
       then "\x" +:+ hex_digit (n `div` 16) +:+ hex_digit (n `mod` 16)
       else String c "".

Fixpoint repr_chars (quote : nat) (s : string) : string :=
  match s with
  | EmptyString => ""
  | String c s' => repr_char quote c +:+ repr_chars quote s'
  end.

Definition py_repr (s : string) : string :=
  let quote := if has_char 39 s && negb (has_char 34 s) then 34 else 39 in
  let q := String (Ascii.ascii_of_nat quote) "" in
  q +:+ repr_chars quote s +:+ q.

(** [str(e)], as interpolated by [f"...{e}"]; for a [KeyError] that is the
    [repr] of the key. *)
Definition exn_str (e : exn) : string :=
  match e with
  | ValueError msg => msg
  | KeyError key => py_repr key
  | IndexError msg => msg
  | AttributeError msg => msg
  | ApiError msg => msg
  end.

Inductive outcome (A : Type) : Type :=
  | Return (a : A)
  | Raise (e : exn).
Arguments Return {A} a.
Arguments Raise {A} e.

Definition is_ValueError {A} (r : outcome A) : bool :=
  match r with
  | Raise (ValueError _) => true
  | _ => false
  end.

Definition is_KeyError {A} (r : outcome A) : bool :=
  match r with
  | Raise (KeyError _) => true
  | _ => false
  end.

(** ** Truthiness *)

(** [bool(s)] for a string, and for an [Optional[str]] / [Optional[list]]. *)
Definition str_truthy (s : string) : bool :=
  match s with
  | EmptyString => false
  | String _ _ => true
  end.

Definition opt_str_truthy (o : option string) : bool :=
  match o with
  | None => false
  | Some s => str_truthy s
  end.

Definition opt_list_truthy {A} (o : option (list A)) : bool :=
  match o with
  | None | Some [] => false
  | Some (_ :: _) => true
  end.

(** [a or b] on strings. *)
Definition str_or (a b : string) : string :=
  if str_truthy a then a else b.

(** The one-character string holding a line feed, and [sep.join(parts)]. *)
Definition LF : string := "
".

Definition join (sep : string) (parts : list string) : string :=
  String.concat sep parts.

(** ** The SDK surface used by the scripts *)

(** [Letta(base_url=..., token=..., timeout=...)]: the keyword arguments the
    client was built from. *)
Record Letta : Type := mkLetta {
  base_url : option string;
  token : option string;
  timeout : option Z
}.

Record CreateBlock : Type := mkCreateBlock {
  label : string;
  description : option string;
  value : string
}.

Record MessageCreate : Type := mkMessageCreate {
  role : string;
  content : string
}.

(** The agent object handed back by [agents.create]. *)
Record AgentState : Type := mkAgentState {
  id : string;
  name : string
}.

(** The [content] of a message: a string, or a list of content parts. Of
    such a list the scripts only ever take [str()], to print it or to format
    it into the next prompt, so it is kept as the text [str()] gives. *)
Inductive content_value : Type :=
  | Text (s : string)
  | Parts (shown : string).

(** [str(c)] *)
Definition content_str (c : content_value) : string :=
  match c with
  | Text s => s
  | Parts shown => shown
  end.

(** One message of a reply: the name of its class, its [message_type] tag
    and its [content], which only some classes have (an assistant, user or
    system message does; a reasoning, tool-call or tool-return message does
    not). Then the reply. *)
Record Message : Type := mkMessage {
  class_name : string;
  message_type : string;
  msg_content : option content_value
}.

Record LettaResponse : Type := mkLettaResponse {
  messages : list Message
}.

(** The block object handed back by [agents.blocks.retrieve]. *)
Record Block : Type := mkBlock {
  block_value : string
}.

(** Keyword arguments of [client.agents.create]. *)
Record CreateAgent : Type := mkCreateAgent {
  ca_name : string;
  ca_memory_blocks : list CreateBlock;
  ca_model : string;
  ca_embedding : string;
  ca_tools : option (list string)
}.

(** Every SDK entry point a script reaches, with its arguments. *)
Inductive SdkCall : Type :=
  | NewLetta (c : Letta)
  | AgentsCreate (c : Letta) (args : CreateAgent)
  | MessagesCreate (c : Letta) (agent_id : string) (msgs : list MessageCreate)
  | BlocksModify (c : Letta) (agent_id block_label new_value : string)
      (read_only : bool)
  | BlocksRetrieve (c : Letta) (agent_id block_label : string).

(** The remote server: for each entry point, what it answers given the calls
    made before.  Nothing is assumed about it. *)
Record Server : Type := mkServer {
  srv_agents_create :
    list SdkCall → Letta → CreateAgent → outcome AgentState;
  srv_messages_create :
    list SdkCall → Letta → string → list MessageCreate → outcome LettaResponse;
  srv_blocks_modify :
    list SdkCall → Letta → string → string → string → bool → outcome Block;
  srv_blocks_retrieve :
    list SdkCall → Letta → string → string → outcome Block
}.

(** ** The world outside the object *)

Record datetime : Type := mkDatetime {
  year : nat; month : nat; day : nat;
  hour : nat; minute : nat; second : nat
}.

(** Zero padding to at least [w] digits, as [%m], [%d], [%H], [%M], [%S] (two)
    and [%Y] (four) do. *)
Fixpoint zeros (n : nat) : string :=
  match n with
  | O => ""
  | S n => "0" +:+ zeros n
  end.

Definition zpad (w n : nat) : string :=
  let s := pretty n in zeros (w - String.length s) +:+ s.

(** [d.strftime('%Y-%m-%d %H:%M:%S')] *)
Definition strftime (d : datetime) : string :=
  zpad 4 (year d) +:+ "-" +:+ zpad 2 (month d) +:+ "-" +:+ zpad 2 (day d)
  +:+ " " +:+ zpad 2 (hour d) +:+ ":" +:+ zpad 2 (minute d)
  +:+ ":" +:+ zpad 2 (second d).

Record World : Type := mkWorld {
  sdk_calls : list SdkCall;        (* oldest first *)
  stdout : list string;            (* printed lines, oldest first *)
  environ : gmap string string;    (* os.environ *)
  clock : datetime                 (* what datetime.now() reads *)
}.

(** State of a running script: the object [self] (or [tt] for module-level
    functions) and the world. *)
Record State (O : Type) : Type := mkState {
  this : O;
  world : World
}.
Arguments mkState {O} this world.
Arguments this {O} s.
Arguments world {O} s.

(** ** The monad *)

(** State survives an exception, as attribute assignments and output do. *)
Definition Py (O A : Type) : Type := State O → outcome A * State O.

Definition py_ret {O A} (a : A) : Py O A := λ s, (Return a, s).

Definition py_bind {O A B} (k : A → Py O B) (m : Py O A) : Py O B :=
  λ s, match m s with
       | (Return a, s') => k a s'
       | (Raise e, s') => (Raise e, s')
       end.

Definition raise {O A} (e : exn) : Py O A := λ s, (Raise e, s).

#[global] Instance Py_ret {O} : MRet (Py O) := @py_ret O.
#[global] Instance Py_bind {O} : MBind (Py O) := @py_bind O.

(** [try: body except Exception as e: handler e] *)
Definition try_except {O A} (body : Py O A) (handler : exn → Py O A) : Py O A :=
  λ s, match body s with
       | (Return a, s') => (Return a, s')
       | (Raise e, s') => handler e s'
       end.

Definition get_self {O} : Py O O := λ s, (Return (this s), s).

Definition modify_self {O} (f : O → O) : Py O unit :=
  λ s, (Return (), mkState (f (this s)) (world s)).

Definition log_call (c : SdkCall) (w : World) : World :=
  mkWorld (sdk_calls w ++ [c]) (stdout w) (environ w) (clock w).

Definition say (line : string) (w : World) : World :=
  mkWorld (sdk_calls w) (stdout w ++ [line]) (environ w) (clock w).

Definition print {O} (line : string) : Py O unit :=
  λ s, (Return (), mkState (this s) (say line (world s))).

(** [os.getenv(k)] *)
Definition getenv {O} (k : string) : Py O (option string) :=
  λ s, (Return (environ (world s) !! k), s).

(** [datetime.now()] *)
Definition datetime_now {O} : Py O datetime :=
  λ s, (Return (clock (world s)), s).

(** [xs[-1]] *)
Definition last_item {O A} (xs : list A) : Py O A :=
  match last xs with
  | Some x => mret x
  | None => raise (IndexError "list index out of range")
  end.

(** [m.content] *)
Definition get_content {O} (m : Message) : Py O content_value :=
  match msg_content m with
  | Some c => mret c
  | None =>
      raise (AttributeError
               ("'" +:+ class_name m
                +:+ "' object has no attribute 'content'"))
  end.

(** [o.attr] where [o] may be [None]. *)
Definition attr {O A B} (o : option A) (f : A → B) (attr_name : string)
  : Py O B :=
  match o with
  | Some a => mret (f a)
  | None =>
      raise (AttributeError
               ("'NoneType' object has no attribute '" +:+ attr_name +:+ "'"))
  end.

Section Remote.
Context (server : Server).

(** A call is recorded, then answered by the server from the calls made
    before it. *)
Definition sdk {O A} (c : SdkCall)
    (answer : list SdkCall → outcome A) : Py O A :=
  λ s, let w := world s in
       (answer (sdk_calls w), mkState (this s) (log_call c w)).

Definition new_Letta {O} (c : Letta) : Py O Letta :=
  sdk (NewLetta c) (λ _, Return c).

Definition agents_create {O} (c : Letta) (args : CreateAgent)
  : Py O AgentState :=
  sdk (AgentsCreate c args) (λ h, srv_agents_create server h c args).

Definition agents_messages_create {O} (c : Letta) (agent_id : string)
    (msgs : list MessageCreate) : Py O LettaResponse :=
  sdk (MessagesCreate c agent_id msgs)
      (λ h, srv_messages_create server h c agent_id msgs).

Definition agents_blocks_modify {O} (c : Letta)
    (agent_id block_label new_value : string) (read_only : bool)
  : Py O Block :=
  sdk (BlocksModify c agent_id block_label new_value read_only)
      (λ h, srv_blocks_modify server h c agent_id block_label new_value
              read_only).

Definition agents_blocks_retrieve {O} (c : Letta)
    (agent_id block_label : string) : Py O Block :=
  sdk (BlocksRetrieve c agent_id block_label)
      (λ h, srv_blocks_retrieve server h c agent_id block_label).
End Remote.

(** Calls issued by a run: what the log gained. *)
Definition issued (before after : World) : list SdkCall :=
  drop (length (sdk_calls before)) (sdk_calls after).

(** ** [examples/writer/writing_agent.py] *)

Module Writer.

Record WritingAgent : Type := mkWritingAgent {
  client : Letta;
  agent : option AgentState;
  writing_style : string;
  current_project : option string
}.

Definition set_agent (a : option AgentState) (o : WritingAgent) :=
  mkWritingAgent (client o) a (writing_style o) (current_project o).
Definition set_writing_style (st : string) (o : WritingAgent) :=
  mkWritingAgent (client o) (agent o) st (current_project o).
Definition set_current_project (p : option string) (o : WritingAgent) :=
  mkWritingAgent (client o) (agent o) (writing_style o) p.

(** Default values of keyword parameters. *)
Definition base_url_default : string := "http://localhost:8283".
Definition name_default : string := "写作助手".
Definition requirements_default : string := "".
Definition structure_type_default : string := "standard".
Definition word_count_default : Z := 500.
Definition depth_default : string := "medium".

Definition no_agent_msg : string := "请先创建写作智能体".

(** [WritingAgent(base_url=..., token=...)]; [None] for [url] means the
    keyword was left out. *)
Definition __init__ (url : option string) (tok : option string)
  : Py unit WritingAgent :=
  let url := default base_url_default url in
  c ← (if opt_str_truthy tok
       then new_Letta (mkLetta None tok None)
       else new_Letta (mkLetta (Some url) None None));
  mret (mkWritingAgent c None "专业、清晰、有逻辑性" None).

Definition persona_value (style : string) : string :=
"你是一个专业的写作助手，具有以下特点：
1. 写作风格：" +:+ style +:+ "
2. 擅长各种文体：学术论文、商业报告、创意写作、技术文档等
3. 注重逻辑性、清晰度和可读性
4. 能够根据读者群体调整写作风格
5. 具备研究和分析能力，能够提供有深度的内容".

Definition writing_skills_value : string :=
"核心写作技能：
- 结构化写作：能够组织清晰的文章结构
- 语言表达：使用准确、生动的语言
- 逻辑推理：构建有力的论证
- 读者导向：根据目标读者调整内容
- 创意表达：在保持专业性的同时展现创意".

Definition memory_blocks (style : string) : list CreateBlock :=
  [ mkCreateBlock "persona" None (persona_value style);
    mkCreateBlock "writing_skills" None writing_skills_value;
    mkCreateBlock "current_project" None "写作项目" ].

Definition create_args (nm style : string) : CreateAgent :=
  mkCreateAgent nm (memory_blocks style)
    "openai/gpt-4o-mini" "openai/text-embedding-3-small"
    (Some ["web_search"]).

(** Prompt templates, one per operation. *)
Definition project_info (project_name project_type target_audience
    requirements : string) (now : datetime) : string :=
"
写作项目信息：
- 项目名称：" +:+ project_name +:+ "
- 项目类型：" +:+ project_type +:+ "
- 目标读者：" +:+ target_audience +:+ "
- 特殊要求：" +:+ str_or requirements "无" +:+ "
- 开始时间：" +:+ strftime now +:+ "
".

Definition outline_prompt (topic structure_type : string) : string :=
"
请为以下主题生成详细的写作大纲：

主题：" +:+ topic +:+ "
结构类型：" +:+ structure_type +:+ "

请提供：
1. 文章标题建议
2. 主要章节结构
3. 每个章节的关键要点
4. 逻辑流程说明
5. 建议的写作顺序

请确保大纲逻辑清晰，结构合理。
".

Definition points_text (key_points : list string) : string :=
  join LF ((λ point, "- " +:+ point) <$> key_points).

Definition expand_prompt (section : string) (key_points : list string)
    (word_count : Z) : string :=
"
请将以下章节内容扩展为完整的段落：

章节：" +:+ section +:+ "
关键要点：
" +:+ points_text key_points +:+ "

要求：
1. 字数控制在 " +:+ pretty word_count +:+ " 字左右
2. 保持逻辑清晰，过渡自然
3. 使用具体的例子和细节
4. 确保内容有深度和说服力
5. 语言流畅，符合目标读者需求

请直接输出扩展后的内容，不需要额外说明。
".

Definition focus_text (focus_areas : option (list string)) : string :=
  if opt_list_truthy focus_areas
  then "
重点润色方面：" +:+ join ", " (default [] focus_areas)
  else "".

Definition polish_prompt (content : string)
    (focus_areas : option (list string)) : string :=
"
请对以下内容进行润色改进：

" +:+ content +:+ "

润色要求：
1. 改进语言表达，使其更加生动有力
2. 优化句子结构，提高可读性
3. 增强逻辑性和连贯性
4. 确保用词准确，避免重复
5. 保持原文的核心观点和结构" +:+ focus_text focus_areas +:+ "

请直接输出润色后的内容，并简要说明主要改进点。
".

Definition style_prompt (content target_style : string) : string :=
"
请将以下内容调整为 " +:+ target_style +:+ " 的写作风格：

" +:+ content +:+ "

风格调整要求：
1. 语言风格：" +:+ target_style +:+ "
2. 保持原文的核心信息和逻辑结构
3. 调整语调和表达方式以符合目标风格
4. 确保风格转换自然，不显突兀
5. 保持内容的专业性和准确性

请直接输出调整后的内容。
".

Definition depth_instructions : gmap string string :=
  {[ "shallow" := "提供基础信息和概述";
     "medium" := "提供详细信息和多个角度";
     "deep" := "提供深入分析和专业见解" ]}.

(** [d[k]] *)
Definition getitem {O} (d : gmap string string) (k : string) : Py O string :=
  match d !! k with
  | Some v => mret v
  | None => raise (KeyError k)
  end.

(** The template of [research_topic], with the two interpolated lookups
    already evaluated. *)
Definition research_template (instr1 topic instr2 : string) : string :=
"
请对以下主题进行 " +:+ instr1 +:+ " 的研究：

主题：" +:+ topic +:+ "

请提供：
1. 主题的核心概念和定义
2. 相关的重要事实和数据
3. 不同观点和争议点
4. 实际应用和案例
5. 进一步研究的建议

研究要求：" +:+ instr2 +:+ "，确保信息的准确性和相关性。
".

Definition research_prompt {O} (topic depth : string) : Py O string :=
  instr1 ← getitem depth_instructions depth;
  instr2 ← getitem depth_instructions depth;
  mret (research_template instr1 topic instr2).

Definition user_message (prompt : string) : list MessageCreate :=
  [mkMessageCreate "user" prompt].

Section Methods.
Context (server : Server).

Definition create_writing_agent (nm : string) (style : option string)
  : Py WritingAgent string :=
  _ ← (if opt_str_truthy style
       then modify_self (set_writing_style (default "" style))
       else mret ());
  self ← get_self;
  a ← agents_create server (client self)
         (create_args nm (writing_style self));
  _ ← modify_self (set_agent (Some a));
  _ ← print ("✅ 写作智能体 '" +:+ nm +:+ "' 创建成功！");
  self ← get_self;
  aid ← attr (agent self) id "id";
  _ ← print ("智能体 ID: " +:+ aid);
  self ← get_self;
  attr (agent self) id "id".

Definition _update_memory_block (block_label new_value : string)
  : Py WritingAgent unit :=
  try_except
    (self ← get_self;
     aid ← attr (agent self) id "id";
     _ ← agents_blocks_modify server (client self) aid block_label
           new_value false;
     mret ())
    (λ e, print ("更新记忆块失败: " +:+ exn_str e)).

Definition start_writing_project (project_name project_type
    target_audience requirements : string) : Py WritingAgent unit :=
  self ← get_self;
  match agent self with
  | None => raise (ValueError no_agent_msg)
  | Some _ =>
      now ← datetime_now;
      let info := project_info project_name project_type
                    target_audience requirements now in
      _ ← _update_memory_block "current_project" info;
      _ ← modify_self (set_current_project (Some project_name));
      _ ← print ("📝 开始写作项目：" +:+ project_name);
      _ ← print ("项目类型：" +:+ project_type);
      print ("目标读者：" +:+ target_audience)
  end.

Definition generate_outline (topic structure_type : string)
  : Py WritingAgent content_value :=
  self ← get_self;
  match agent self with
  | None => raise (ValueError no_agent_msg)
  | Some _ =>
      let prompt := outline_prompt topic structure_type in
      self ← get_self;
      aid ← attr (agent self) id "id";
      response ← agents_messages_create server (client self) aid
                   (user_message prompt);
      m ← last_item (messages response);
      outline ← get_content m;
      _ ← print "📋 生成的文章大纲：";
      _ ← print (content_str outline);
      mret outline
  end.

Definition expand_content (section : string) (key_points : list string)
    (word_count : Z) : Py WritingAgent content_value :=
  self ← get_self;
  match agent self with
  | None => raise (ValueError no_agent_msg)
  | Some _ =>
      let prompt := expand_prompt section key_points word_count in
      self ← get_self;
      aid ← attr (agent self) id "id";
      response ← agents_messages_create server (client self) aid
                   (user_message prompt);
      m ← last_item (messages response);
      content ← get_content m;
      _ ← print ("📝 扩展内容（" +:+ section +:+ "）：");
      _ ← print (content_str content);
      mret content
  end.

Definition polish_content (content : string)
    (focus_areas : option (list string))
  : Py WritingAgent content_value :=
  self ← get_self;
  match agent self with
  | None => raise (ValueError no_agent_msg)
  | Some _ =>
      let prompt := polish_prompt content focus_areas in
      self ← get_self;
      aid ← attr (agent self) id "id";
      response ← agents_messages_create server (client self) aid
                   (user_message prompt);
      m ← last_item (messages response);
      polished ← get_content m;
      _ ← print "✨ 润色后的内容：";
      _ ← print (content_str polished);
      mret polished
  end.

Definition adjust_style (content target_style : string)
  : Py WritingAgent content_value :=
  self ← get_self;
  match agent self with
  | None => raise (ValueError no_agent_msg)
  | Some _ =>
      let prompt := style_prompt content target_style in
      self ← get_self;
      aid ← attr (agent self) id "id";
      response ← agents_messages_create server (client self) aid
                   (user_message prompt);
      m ← last_item (messages response);
      adjusted ← get_content m;
      _ ← print ("🎨 风格调整后的内容（" +:+ target_style +:+ "）：");
      _ ← print (content_str adjusted);
      mret adjusted
  end.

Definition research_topic (topic depth : string)
  : Py WritingAgent content_value :=
  self ← get_self;
  match agent self with
  | None => raise (ValueError no_agent_msg)
  | Some _ =>
      prompt ← research_prompt topic depth;
      self ← get_self;
      aid ← attr (agent self) id "id";
      response ← agents_messages_create server (client self) aid
                   (user_message prompt);
      m ← last_item (messages response);
      research ← get_content m;
      _ ← print ("🔍 研究结果（" +:+ topic +:+ "）：");
      _ ← print (content_str research);
      mret research
  end.

Definition get_writing_progress : Py WritingAgent (gmap string string) :=
  self ← get_self;
  match agent self with
  | None => mret {[ "error" := "智能体未创建" ]}
  | Some _ =>
      try_except
        (self ← get_self;
         aid ← attr (agent self) id "id";
         project_block ← agents_blocks_retrieve server (client self) aid
                           "current_project";
         self ← get_self;
         aid ← attr (agent self) id "id";
         anm ← attr (agent self) name "name";
         mret {[ "current_project" := block_value project_block;
                 "agent_id" := aid;
                 "agent_name" := anm ]})
        (λ e, mret {[ "error" := "获取进度失败: " +:+ exn_str e ]})
  end.
End Methods.

End Writer.

(** ** [examples/writer/writing_agent_local.py] *)

Module WriterLocal.

Record WritingAgent : Type := mkWritingAgent {
  client : Letta;
  model : string;
  embedding : string;
  agent : option AgentState;
  writing_style : string;
  current_project : option string
}.

Definition set_agent (a : option AgentState) (o : WritingAgent) :=
  mkWritingAgent (client o) (model o) (embedding o) a (writing_style o)
    (current_project o).
Definition set_writing_style (st : string) (o : WritingAgent) :=
  mkWritingAgent (client o) (model o) (embedding o) (agent o) st
    (current_project o).
Definition set_current_project (p : option string) (o : WritingAgent) :=
  mkWritingAgent (client o) (model o) (embedding o) (agent o)
    (writing_style o) p.

Definition base_url_default : string := "http://localhost:8283".
Definition name_default : string := "写作助手".
Definition requirements_default : string := "".
Definition structure_type_default : string := "standard".
Definition word_count_default : Z := 500.

Definition no_agent_msg : string := "请先创建写作智能体".

Definition __init__ (url : option string) (tok : option string)
  : Py unit WritingAgent :=
  let url := default base_url_default url in
  if opt_str_truthy tok
  then
    c ← new_Letta (mkLetta None tok None);
    mret (mkWritingAgent c "openai/gpt-4o-mini"
            "openai/text-embedding-3-small" None "专业、清晰、有逻辑性" None)
  else
    c ← new_Letta (mkLetta (Some url) None (Some 120%Z));
    mret (mkWritingAgent c "deepseek/deepseek-chat"
            "ollama/nomic-embed-text:latest" None "专业、清晰、有逻辑性" None).

Definition persona_value (style : string) : string :=
"你是一个专业的写作助手，具有以下特点：
1. 写作风格：" +:+ style +:+ "
2. 擅长各种文体：新闻新作、商业报告、创意写作、技术文档等
3. 注重逻辑性、清晰度和可读性
4. 能够根据读者群体调整写作风格
5. 具备获得最新热点能力".

Definition writing_skills_value : string :=
"核心写作技能：
- 结构化写作：能够组织清晰的文章结构
- 语言表达：使用准确、生动的语言
- 逻辑推理：构建有力的论证
- 读者导向：根据目标读者调整内容
- 创意表达：在保持专业性的同时展现创意".

Definition memory_blocks (style : string) : list CreateBlock :=
  [ mkCreateBlock "persona"
      (Some "本块存储有关当前agent角色的详细信息,指导agent的行为和响应方式。助于和用户在互动中保持一致性.")
      (persona_value style);
    mkCreateBlock "writing_skills"
      (Some "本块存储写作写作技巧相关知识 ，帮助智能体提升写作质量。")
      writing_skills_value;
    mkCreateBlock "current_project"
      (Some "本块存储当前的写作项目详情，帮助智能体跟踪进度和要求。")
      "写作项目" ].

Definition create_args (self : WritingAgent) (nm : string) : CreateAgent :=
  mkCreateAgent nm (memory_blocks (writing_style self))
    (model self) (embedding self) (Some ["web_search"]).

Definition project_info (project_name project_type target_audience
    requirements : string) (now : datetime) : string :=
"
写作项目信息：
- 项目名称：" +:+ project_name +:+ "
- 项目类型：" +:+ project_type +:+ "
- 目标读者：" +:+ target_audience +:+ "
- 特殊要求：" +:+ str_or requirements "无" +:+ "
- 开始时间：" +:+ strftime now +:+ "
".

Definition outline_prompt (topic structure_type : string) : string :=
"
请为以下主题生成详细的写作大纲：

主题：" +:+ topic +:+ "
结构类型：" +:+ structure_type +:+ "

请提供：
1. 文章标题建议
2. 大纲结构(简短说明)
3. 不超过300字
请确保大纲逻辑清晰，结构合理。
".

Definition points_text (key_points : list string) : string :=
  join LF ((λ point, "- " +:+ point) <$> key_points).

Definition expand_prompt (section : string) (key_points : list string)
    (word_count : Z) : string :=
"
请将以下章节内容扩展为完整的段落：

章节：" +:+ section +:+ "
关键要点：
" +:+ points_text key_points +:+ "

要求：
1. 字数控制在 " +:+ pretty word_count +:+ " 字左右
2. 保持逻辑清晰，过渡自然
3. 使用具体的例子和细节
4. 确保内容有深度和说服力
5. 语言流畅，符合目标读者需求

请直接输出扩展后的内容，不需要额外说明。
".

Definition user_message (prompt : string) : list MessageCreate :=
  [mkMessageCreate "user" prompt].

Section Methods.
Context (server : Server).

Definition create_writing_agent (nm : string) (style : option string)
  : Py WritingAgent string :=
  _ ← (if opt_str_truthy style
       then modify_self (set_writing_style (default "" style))
       else mret ());
  self ← get_self;
  a ← agents_create server (client self) (create_args self nm);
  _ ← modify_self (set_agent (Some a));
  _ ← print ("✅ 写作智能体 '" +:+ nm +:+ "' 创建成功！");
  self ← get_self;
  aid ← attr (agent self) id "id";
  _ ← print ("智能体 ID: " +:+ aid);
  self ← get_self;
  attr (agent self) id "id".

Definition _update_memory_block (block_label new_value : string)
  : Py WritingAgent unit :=
  try_except
    (self ← get_self;
     aid ← attr (agent self) id "id";
     _ ← agents_blocks_modify server (client self) aid block_label
           new_value false;
     mret ())
    (λ e, print ("更新记忆块失败: " +:+ exn_str e)).

Definition start_writing_project (project_name project_type
    target_audience requirements : string) : Py WritingAgent unit :=
  self ← get_self;
  match agent self with
  | None => raise (ValueError no_agent_msg)
  | Some _ =>
      now ← datetime_now;
      let info := project_info project_name project_type
                    target_audience requirements now in
      _ ← _update_memory_block "current_project" info;
      _ ← modify_self (set_current_project (Some project_name));
      _ ← print ("📝 开始写作项目：" +:+ project_name);
      _ ← print ("项目类型：" +:+ project_type);
      print ("目标读者：" +:+ target_audience)
  end.

Definition generate_outline (topic structure_type : string)
  : Py WritingAgent content_value :=
  self ← get_self;
  match agent self with
  | None => raise (ValueError no_agent_msg)
  | Some _ =>
      let prompt := outline_prompt topic structure_type in
      self ← get_self;
      aid ← attr (agent self) id "id";
      response ← agents_messages_create server (client self) aid
                   (user_message prompt);
      m ← last_item (messages response);
      outline ← get_content m;
      _ ← print "📋 生成的文章大纲：";
      _ ← print (content_str outline);
      mret outline
  end.

Definition expand_content (section : string) (key_points : list string)
    (word_count : Z) : Py WritingAgent content_value :=
  self ← get_self;
  match agent self with
  | None => raise (ValueError no_agent_msg)
  | Some _ =>
      let prompt := expand_prompt section key_points word_count in
      self ← get_self;
      aid ← attr (agent self) id "id";
      response ← agents_messages_create server (client self) aid
                   (user_message prompt);
      m ← last_item (messages response);
      content ← get_content m;
      _ ← print ("📝 扩展内容（" +:+ section +:+ "）：");
      _ ← print (content_str content);
      mret content
  end.

Definition get_writing_progress : Py WritingAgent (gmap string string) :=
  self ← get_self;
  match agent self with
  | None => mret {[ "error" := "智能体未创建" ]}
  | Some _ =>
      try_except
        (self ← get_self;
         aid ← attr (agent self) id "id";
         project_block ← agents_blocks_retrieve server (client self) aid
                           "current_project";
         self ← get_self;
         aid ← attr (agent self) id "id";
         anm ← attr (agent self) name "name";
         mret {[ "current_project" := block_value project_block;
                 "agent_id" := aid;
                 "agent_name" := anm ]})
        (λ e, mret {[ "error" := "获取进度失败: " +:+ exn_str e ]})
  end.
End Methods.

End WriterLocal.

(** ** [examples/writing/ultimate_simple.py] *)

Module UltimateSimple.

Definition api_key_var : string := "DEEPSEEK_API_KEY".
Definition missing_key_msg : string := "需要设置 DEEPSEEK_API_KEY 环境变量".
Definition fallback_text : string := "写作完成".

Definition local_client : Letta :=
  mkLetta (Some "http://localhost:8283") None None.

Definition create_args : CreateAgent :=
  mkCreateAgent "deepseek_writer"
    [mkCreateBlock "persona" None "你是专业写作助手，使用 DeepSeek 模型"]
    "deepseek/deepseek-chat" "ollama/nomic-embed-text:latest" None.

Definition article_prompt (topic : string) : string :=
  "写一篇关于 " +:+ topic +:+ " 的文章".

Section Functions.
Context (server : Server).

Definition create_writer : Py unit (Letta * AgentState) :=
  key ← getenv api_key_var;
  if negb (opt_str_truthy key)
  then
    _ ← print "❌ 未找到 DEEPSEEK_API_KEY 环境变量";
    _ ← print "💡 请先设置环境变量：";
    _ ← print "   export DEEPSEEK_API_KEY='sk-your-api-key-here'";
    _ ← print "   然后重新启动 Letta 服务器";
    raise (ValueError missing_key_msg)
  else
    client ← new_Letta local_client;
    agent ← agents_create server client create_args;
    mret (client, agent).

Definition write_article (client : Letta) (agent : AgentState)
    (topic : string) : Py unit content_value :=
  response ← agents_messages_create server client (id agent)
               [mkMessageCreate "user" (article_prompt topic)];
  m ← last_item (messages response);
  if String.eqb (message_type m) "assistant_message"
  then
    m' ← last_item (messages response);
    get_content m'
  else mret (Text fallback_text).
End Functions.

End UltimateSimple.

(** ** The demonstration entry points: [main] of the two writer scripts *)

(** [s * n] *)
Fixpoint str_mul (s : string) (n : nat) : string :=
  match n with
  | O => ""
  | S n => s +:+ str_mul s n
  end.

(** Runs a computation on an object held in a local variable: the world is
    shared, the object lives only as long as the variable. *)
Definition with_local {O A} (o : O) (m : Py O A) : Py unit A :=
  λ s, let r := m (mkState o (world s)) in (r.1, mkState () (world r.2)).

(** [print("\n" + "="*50)] *)
Definition rule : string := LF +:+ str_mul "=" 50.

Module WriterDemo.
Import Writer.

Definition demo_token : string :=
  "sk-let-ZjEwZDkzMmQtYzk3NC00YzFjLWFlZGItNWZkNDA1ZmQ1NTBkOmMxMGNkZGQ2LTllMTgtNGZmNC1hODk0LWMxNDA4MGYyMWE2NA==".

Section Main.
Context (server : Server).
(** [json.dumps(progress, indent=2, ensure_ascii=False)], left open. *)
Context (json_dumps : gmap string string → string).

(** The body of the [try] block of [main]. *)
Definition main_try : Py WritingAgent unit :=
  agent_id ← create_writing_agent server "writer_agent_v3"
                (Some "专业、清晰、有逻辑性，适合学术和商业写作");
  _ ← start_writing_project server "AI 技术发展报告" "技术报告"
         "技术管理者和决策者" "需要包含最新趋势和实际应用案例";
  _ ← print rule;
  outline ← generate_outline server
               "人工智能技术的最新发展趋势及其对商业的影响" "business";
  _ ← print rule;
  research ← research_topic server "人工智能在商业中的应用" "medium";
  _ ← print rule;
  content ← expand_content server "AI 技术概述"
               ["机器学习的发展历程"; "深度学习的关键突破";
                "大语言模型的应用"; "AI 技术的商业化进程"] 300;
  _ ← print rule;
  polished ← polish_content server (content_str content)
                (Some ["语言流畅度"; "逻辑性"; "专业性"]);
  _ ← print rule;
  adjusted ← adjust_style server (content_str polished) "轻松易懂";
  _ ← print rule;
  progress ← get_writing_progress server;
  _ ← print "📊 写作进度：";
  print (json_dumps progress).

Definition main : Py unit unit :=
  _ ← print "🚀 启动写作智能体演示...";
  writer ← __init__ None (Some demo_token);
  _ ← with_local writer
         (try_except main_try (λ e, print ("❌ 错误: " +:+ exn_str e)));
  print (LF +:+ "✅ 写作智能体演示完成！").
End Main.

End WriterDemo.

Module LocalDemo.
Import WriterLocal.

Section Main.
Context (server : Server).
Context (json_dumps : gmap string string → string).

Definition main_try : Py WritingAgent unit :=
  agent_id ← create_writing_agent server "writer_agent_v7"
                (Some "专业、清晰、有逻辑性，适合新闻写作");
  _ ← start_writing_project server "台风问题" "新闻稿" "大众"
         "需要包含最新趋,其对大家生活的影响";
  _ ← print rule;
  outline ← generate_outline server "台风的最新发展趋势" "standard";
  _ ← print rule;
  content ← expand_content server "台风问题概述"
               ["新闻的发展历程"; "对大家的影响"; "如何应对"] 300;
  _ ← print rule;
  progress ← get_writing_progress server;
  _ ← print "📊 写作进度：";
  print (json_dumps progress).

Definition main : Py unit unit :=
  _ ← print "🚀 启动写作智能体演示...";
  writer ← __init__ (Some "http://localhost:8283") None;
  _ ← with_local writer
         (try_except main_try (λ e, print ("❌ 错误: " +:+ exn_str e)));
  print (LF +:+ "✅ 写作智能体演示完成！").
End Main.

End LocalDemo.

(** ** Vocabulary of the properties *)

(** [s] occurs verbatim in [t]. *)
Definition Substring (s t : string) : Prop :=
  ∃ pre post, t = pre +:+ s +:+ post.

(** The same, decided: [s in t]. *)
Fixpoint occurs (s t : string) : bool :=
  String.prefix s t ||
  match t with
  | EmptyString => false
  | String _ t' => occurs s t'
  end.

(** The server's answer to the prompt [p] sent from state [st] by client [c]
    to the agent [aid]. *)
Definition reply_to {O} (server : Server) (st : State O) (c : Letta)
    (aid p : string) : outcome LettaResponse :=
  srv_messages_create server (sdk_calls (world st)) c aid
    [mkMessageCreate "user" p].

(** A run returned the content of the last message of [resp]. *)
Definition returns_last_content {O} (r : outcome content_value * State O)
    (resp : LettaResponse) : Prop :=
  ∃ m c, last (messages resp) = Some m
         ∧ msg_content m = Some c
         ∧ r.1 = Return c.

(** The SDK calls a run added to the log. *)
Definition calls_of {O A} (st : State O) (r : outcome A * State O)
  : list SdkCall :=
  issued (world st) (world r.2).

(** The exception of reading [content] off a message that has none. *)
Definition no_content (m : Message) : exn :=
  AttributeError
    ("'" +:+ class_name m +:+ "' object has no attribute 'content'").

(** What every prompt operation does once its prompt is built: the call is
    logged; a failed call, an empty reply, or a last message without content
    propagates as an exception; otherwise a banner and the last message's
    content are printed and that content is returned. *)
Definition read_reply {O} (banner : string) (call : SdkCall)
    (reply : outcome LettaResponse) (st : State O)
  : outcome content_value * State O :=
  let sent := mkState (this st) (log_call call (world st)) in
  match reply with
  | Raise e => (Raise e, sent)
  | Return resp =>
      match last (messages resp) with
      | None => (Raise (IndexError "list index out of range"), sent)
      | Some m =>
          match msg_content m with
          | None => (Raise (no_content m), sent)
          | Some c =>
              (Return c,
               mkState (this st)
                 (say (content_str c)
                    (say banner (log_call call (world st)))))
          end
      end
  end.

(** ** Concrete servers and worlds used in the examples *)

Definition agent1 : AgentState := mkAgentState "agent-1" "writer".

(** A reasoning step has no content; an assistant message and a system
    message have one. *)
Definition thinking : Message :=
  mkMessage "ReasoningMessage" "reasoning_message" None.
Definition answer : Message :=
  mkMessage "AssistantMessage" "assistant_message" (Some (Text "正文")).
Definition notice : Message :=
  mkMessage "SystemMessage" "system_message" (Some (Text "提示")).

(** Answers every prompt with a reasoning step followed by the text. *)
Definition good_server : Server :=
  mkServer
    (λ _ _ args, Return (mkAgentState "agent-1" (ca_name args)))
    (λ _ _ _ _, Return (mkLettaResponse [thinking; answer]))
    (λ _ _ _ _ v _, Return (mkBlock v))
    (λ _ _ _ _, Return (mkBlock "写作项目")).

(** Ends every reply on a reasoning step. *)
Definition musing_server : Server :=
  mkServer
    (λ _ _ args, Return (mkAgentState "agent-1" (ca_name args)))
    (λ _ _ _ _, Return (mkLettaResponse [answer; thinking]))
    (λ _ _ _ _ v _, Return (mkBlock v))
    (λ _ _ _ _, Return (mkBlock "写作项目")).

(** Ends every reply on a system message. *)
Definition noticing_server : Server :=
  mkServer
    (λ _ _ args, Return (mkAgentState "agent-1" (ca_name args)))
    (λ _ _ _ _, Return (mkLettaResponse [answer; notice]))
    (λ _ _ _ _ v _, Return (mkBlock v))
    (λ _ _ _ _, Return (mkBlock "写作项目")).

(** Creates agents but fails every block operation. *)
Definition flaky_server : Server :=
  mkServer
    (λ _ _ args, Return (mkAgentState "agent-1" (ca_name args)))
    (λ _ _ _ _, Raise (ApiError "503"))
    (λ _ _ _ _ _ _, Raise (ApiError "503"))
    (λ _ _ _ _, Raise (ApiError "503")).

Definition noon : datetime := mkDatetime 2025 1 2 12 0 5.

Definition bare_world : World := mkWorld [] [] ∅ noon.

Definition keyed_world : World :=
  mkWorld [] [] {[ "DEEPSEEK_API_KEY" := "sk-test" ]} noon.

Definition cloud : Letta := mkLetta None (Some "sk-let-demo") None.

(** A [writing_agent.py] object before and after [create_writing_agent]. *)
Definition fresh_writer : State Writer.WritingAgent :=
  mkState (Writer.mkWritingAgent cloud None "专业、清晰、有逻辑性" None)
    bare_world.

Definition ready_writer : State Writer.WritingAgent :=
  mkState (Writer.mkWritingAgent cloud (Some agent1) "专业、清晰、有逻辑性" None)
    bare_world.

Definition local_letta : Letta :=
  mkLetta (Some "http://localhost:8283") None (Some 120%Z).

Definition fresh_local : State WriterLocal.WritingAgent :=
  mkState (WriterLocal.mkWritingAgent local_letta "deepseek/deepseek-chat"
             "ollama/nomic-embed-text:latest" None "专业、清晰、有逻辑性" None)
    bare_world.

Definition ready_local : State WriterLocal.WritingAgent :=
  mkState (WriterLocal.mkWritingAgent local_letta "deepseek/deepseek-chat"
             "ollama/nomic-embed-text:latest" (Some agent1)
             "专业、清晰、有逻辑性" None)
    bare_world.

(** Fails every call. *)
Definition dead_server : Server :=
  mkServer
    (λ _ _ _, Raise (ApiError "connection refused"))
    (λ _ _ _ _, Raise (ApiError "connection refused"))
    (λ _ _ _ _ _ _, Raise (ApiError "connection refused"))
    (λ _ _ _ _, Raise (ApiError "connection refused")).

(** Answers every prompt with an empty message list. *)
Definition mute_server : Server :=
  mkServer
    (λ _ _ args, Return (mkAgentState "agent-1" (ca_name args)))
    (λ _ _ _ _, Return (mkLettaResponse []))
    (λ _ _ _ _ v _, Return (mkBlock v))
    (λ _ _ _ _, Return (mkBlock "写作项目")).

(** [json.dumps(d, indent=2, ensure_ascii=False)] for the dictionaries that
    [get_writing_progress] builds; the keys come out in the order in which
    the method writes them. *)
Definition json_escape_char (c : Ascii.ascii) : string :=
  let n := Ascii.nat_of_ascii c in
  if bool_decide (n = 34) then "\" +:+ dquote
  else if bool_decide (n = 92) then "\\"
  else if bool_decide (n = 10) then "\n"
  else if bool_decide (n = 13) then "\r"
  else if bool_decide (n = 9) then "\t"
  else if bool_decide (n = 8) then "\b"
  else if bool_decide (n = 12) then "\f"
  else if bool_decide (n < 32)
       then "\u00" +:+ hex_digit (n `div` 16) +:+ hex_digit (n `mod` 16)
       else String c "".

Fixpoint json_escape (s : string) : string :=
  match s with
  | EmptyString => ""
  | String c s' => json_escape_char c +:+ json_escape s'
  end.

Definition json_string (s : string) : string :=
  dquote +:+ json_escape s +:+ dquote.

Definition json_dumps_progress (d : gmap string string) : string :=
  let keys := ["current_project"; "agent_id"; "agent_name"; "error"] in
  let item k := (λ v, "  " +:+ json_string k +:+ ": " +:+ json_string v)
                <$> d !! k in
  match omap item keys with
  | [] => "{}"
  | items => "{" +:+ LF +:+ join ("," +:+ LF) items +:+ LF +:+ "}"
  end.

(** ** Vocabulary for the further properties *)

(** The state once prompt [p] has gone out and nothing else has happened. *)
Definition sent {O} (st : State O) (c : Letta) (aid p : string) : State O :=
  mkState (this st)
    (log_call (MessagesCreate c aid [mkMessageCreate "user" p]) (world st)).

(** A call of one of the prompt methods of [writing_agent.py], with its
    arguments; [run_call] makes the call. *)
Inductive writer_call : Type :=
  | GenerateOutline (topic structure_type : string)
  | ExpandContent (section : string) (key_points : list string)
      (word_count : Z)
  | PolishContent (content : string) (focus_areas : option (list string))
  | AdjustStyle (content target_style : string)
  | ResearchTopic (topic depth : string).

Definition run_call (server : Server) (c : writer_call)
  : Py Writer.WritingAgent content_value :=
  match c with
  | GenerateOutline topic structure_type =>
      Writer.generate_outline server topic structure_type
  | ExpandContent section key_points word_count =>
      Writer.expand_content server section key_points word_count
  | PolishContent content focus_areas =>
      Writer.polish_content server content focus_areas
  | AdjustStyle content target_style =>
      Writer.adjust_style server content target_style
  | ResearchTopic topic depth => Writer.research_topic server topic depth
  end.

(** The prompt the call builds; none when [research_topic] is given a depth
    that is not in its table. *)
Definition prompt_of (c : writer_call) : option string :=
  match c with
  | GenerateOutline topic structure_type =>
      Some (Writer.outline_prompt topic structure_type)
  | ExpandContent section key_points word_count =>
      Some (Writer.expand_prompt section key_points word_count)
  | PolishContent content focus_areas =>
      Some (Writer.polish_prompt content focus_areas)
  | AdjustStyle content target_style =>
      Some (Writer.style_prompt content target_style)
  | ResearchTopic topic depth =>
      (λ instr, Writer.research_template instr topic instr)
      <$> Writer.depth_instructions !! depth
  end.

(** The line the call prints before the reply's text. *)
Definition banner_of (c : writer_call) : string :=
  match c with
  | GenerateOutline _ _ => "📋 生成的文章大纲："
  | ExpandContent section _ _ => "📝 扩展内容（" +:+ section +:+ "）："
  | PolishContent _ _ => "✨ 润色后的内容："
  | AdjustStyle _ target_style =>
      "🎨 风格调整后的内容（" +:+ target_style +:+ "）："
  | ResearchTopic topic _ => "🔍 研究结果（" +:+ topic +:+ "）："
  end.

(** The same for the two prompt methods of [writing_agent_local.py]. *)
Inductive local_call : Type :=
  | LocalGenerateOutline (topic structure_type : string)
  | LocalExpandContent (section : string) (key_points : list string)
      (word_count : Z).

Definition run_local_call (server : Server) (c : local_call)
  : Py WriterLocal.WritingAgent content_value :=
  match c with
  | LocalGenerateOutline topic structure_type =>
      WriterLocal.generate_outline server topic structure_type
  | LocalExpandContent section key_points word_count =>
      WriterLocal.expand_content server section key_points word_count
  end.

Definition local_prompt_of (c : local_call) : string :=
  match c with
  | LocalGenerateOutline topic structure_type =>
      WriterLocal.outline_prompt topic structure_type
  | LocalExpandContent section key_points word_count =>
      WriterLocal.expand_prompt section key_points word_count
  end.

Definition local_banner_of (c : local_call) : string :=
  match c with
  | LocalGenerateOutline _ _ => "📋 生成的文章大纲："
  | LocalExpandContent section _ _ => "📝 扩展内容（" +:+ section +:+ "）："
  end.

(** Lines a run added to standard output. *)
Definition printed_by {O A} (st : State O) (r : outcome A * State O)
  : list string :=
  drop (length (stdout (world st))) (stdout (world r.2)).

(** The writing style after [create_writing_agent] has looked at its [style]
    argument: the argument when it is given and not empty, else the style the
    object already had. *)
Definition style_in_force (style : option string) (current : string)
  : string :=
  if opt_str_truthy style then default "" style else current.

(** The arguments with which the two classes create their agent. *)
Definition writer_create_args (st : State Writer.WritingAgent)
    (nm : string) (style : option string) : CreateAgent :=
  Writer.create_args nm
    (style_in_force style (Writer.writing_style (this st))).

Definition local_create_args (st : State WriterLocal.WritingAgent)
    (nm : string) (style : option string) : CreateAgent :=
  mkCreateAgent nm
    (WriterLocal.memory_blocks
       (style_in_force style (WriterLocal.writing_style (this st))))
    (WriterLocal.model (this st)) (WriterLocal.embedding (this st))
    (Some ["web_search"]).

(** ** Strings *)

Lemma str_app_cons (x : Ascii.ascii) (a b : string) :
  String x a +:+ b = String x (a +:+ b).
Proof. reflexivity. Qed.

Lemma str_app_nil_l (a : string) : "" +:+ a = a.
Proof. reflexivity. Qed.

Lemma str_app_assoc (a b c : string) : (a +:+ b) +:+ c = a +:+ b +:+ c.
Proof.
  induction a as [|x a IH]; [done |].
  rewrite !str_app_cons. by f_equal.
Qed.

Lemma str_app_nil_r (a : string) : a +:+ "" = a.
Proof.
  induction a as [|x a IH]; [done |].
  rewrite str_app_cons. by f_equal.
Qed.

Lemma Substring_refl (s : string) : Substring s s.
Proof. exists "", "". by rewrite str_app_nil_r. Qed.

Lemma Substring_app_l (s a b : string) : Substring s a → Substring s (a +:+ b).
Proof.
  intros (pre & post & ->). exists pre, (post +:+ b).
  by rewrite !str_app_assoc.
Qed.

Lemma Substring_app_r (s a b : string) : Substring s b → Substring s (a +:+ b).
Proof.
  intros (pre & post & ->). exists (a +:+ pre), post.
  by rewrite !str_app_assoc.
Qed.

Lemma Substring_mid (s pre post : string) : Substring s (pre +:+ s +:+ post).
Proof. by exists pre, post. Qed.

Lemma prefix_app (s post : string) : String.prefix s (s +:+ post) = true.
Proof.
  induction s as [|c s IH]; [by destruct post |].
  rewrite str_app_cons. simpl.
  destruct (Ascii.ascii_dec c c); [done | congruence].
Qed.

Lemma prefix_split (s t : string) :
  String.prefix s t = true → ∃ post, t = s +:+ post.
Proof.
  revert t. induction s as [|c s IH]; intros t; simpl.
  - intros _. by exists t.
  - destruct t as [|d t]; simpl; [done |].
    destruct (Ascii.ascii_dec c d) as [->|]; [| done].
    intros [post ->]%IH. exists post. by rewrite str_app_cons.
Qed.

Lemma occurs_unfold (s t : string) :
  occurs s t =
  String.prefix s t
  || match t with EmptyString => false | String _ t' => occurs s t' end.
Proof. by destruct t. Qed.

(** [occurs] decides [Substring]. *)
Lemma occurs_Substring (s t : string) : occurs s t = true ↔ Substring s t.
Proof.
  split.
  - induction t as [|d t IH]; rewrite occurs_unfold;
      intros [Hp|Hr]%orb_true_iff; try done.
    + apply prefix_split in Hp as [post ->]. by exists "", post.
    + apply prefix_split in Hp as [post ->]. by exists "", post.
    + destruct (IH Hr) as (pre & post & ->). by exists (String d pre), post.
  - intros (pre & post & ->).
    induction pre as [|d pre IH]; rewrite occurs_unfold.
    + by rewrite str_app_nil_l, prefix_app.
    + rewrite str_app_cons, IH. apply orb_true_r.
Qed.

Lemma Substring_join (sep : string) (f : string → string) (x : string)
    (xs : list string) :
  x ∈ xs → Substring x (f x) → Substring x (join sep (f <$> xs)).
Proof.
  intros Hin Hf. unfold join.
  induction xs as [|y ys IH]; [by apply elem_of_nil in Hin |].
  apply elem_of_cons in Hin as [<- | Hin].
  - destruct ys; simpl; [done |]. by apply Substring_app_l.
  - specialize (IH Hin). destruct ys as [|z zs]; [by apply elem_of_nil in Hin |].
    change (Substring x (f y +:+ sep +:+ String.concat sep (f <$> z :: zs))).
    by do 2 apply Substring_app_r.
Qed.

(** ** Running the monad *)

(** Unfolds the monad's operations and evaluates what has become concrete.
    String appends do not unfold, so templates stay as written. *)
Ltac py_run :=
  cbv [mbind mret Py_bind Py_ret py_bind py_ret raise try_except get_self
       modify_self print getenv datetime_now last_item attr get_content sdk
       new_Letta
       agents_create agents_messages_create agents_blocks_modify
       agents_blocks_retrieve];
  simpl.

(** Opens a state into its object's fields and the world. *)
Ltac open_state st :=
  destruct st as [[] ?]; simpl in *; simplify_eq/=.

Lemma issued_same (w : World) : issued w w = [].
Proof. unfold issued. apply drop_all. Qed.

Lemma issued_say (line : string) (w w' : World) :
  issued w (say line w') = issued w w'.
Proof. reflexivity. Qed.

Lemma issued_log (c : SdkCall) (w : World) : issued w (log_call c w) = [c].
Proof. unfold issued, log_call. simpl. apply drop_app_length. Qed.

Lemma issued_log2 (c1 c2 : SdkCall) (w : World) :
  issued w (log_call c2 (log_call c1 w)) = [c1; c2].
Proof.
  unfold issued, log_call. simpl.
  rewrite <- app_assoc. apply drop_app_length.
Qed.

Section ReadReply.
Context {O : Type}.
Implicit Types (st : State O) (call : SdkCall) (resp : LettaResponse).

Lemma read_reply_calls banner call reply st :
  calls_of st (read_reply banner call reply st) = [call].
Proof.
  unfold calls_of, read_reply.
  destruct reply as [resp|e];
    [destruct (last (messages resp)) as [m|];
       [destruct (msg_content m) |] |];
    simpl; rewrite ?issued_say; apply issued_log.
Qed.

Lemma read_reply_last banner call resp st m c :
  last (messages resp) = Some m →
  msg_content m = Some c →
  returns_last_content (read_reply banner call (Return resp) st) resp.
Proof.
  intros Hm Hc. exists m, c. split; [done |]. split; [done |].
  unfold read_reply. by rewrite Hm, Hc.
Qed.

Lemma read_reply_self banner call reply st :
  this (read_reply banner call reply st).2 = this st.
Proof.
  unfold read_reply.
  by destruct reply as [resp|e];
    [destruct (last (messages resp)) as [m|];
       [destruct (msg_content m) |] |].
Qed.
End ReadReply.

(** Proves that a prompt operation run with an agent is [read_reply]. *)
Ltac run_prompt_op st :=
  intros; open_state st;
  unfold read_reply, reply_to, Writer.user_message, WriterLocal.user_message;
  py_run;
  destruct (srv_messages_create _ _ _ _ _) as [resp|e]; simpl;
    [destruct (last (messages resp)) as [m|]; simpl;
       [destruct (msg_content m); simpl |] |];
  reflexivity.

(** *** [writing_agent.py]: each prompt method, once past its guard *)

Section WriterRuns.
Context (server : Server).
Import Writer.
Implicit Types (st : State WritingAgent) (a : AgentState).

Lemma writer_generate_outline_run topic structure_type st a :
  agent (this st) = Some a →
  generate_outline server topic structure_type st =
  let p := outline_prompt topic structure_type in
  read_reply "📋 生成的文章大纲："
    (MessagesCreate (client (this st)) (id a) (user_message p))
    (reply_to server st (client (this st)) (id a) p) st.
Proof. unfold generate_outline. run_prompt_op st. Qed.

Lemma writer_expand_content_run section key_points word_count st a :
  agent (this st) = Some a →
  expand_content server section key_points word_count st =
  let p := expand_prompt section key_points word_count in
  read_reply ("📝 扩展内容（" +:+ section +:+ "）：")
    (MessagesCreate (client (this st)) (id a) (user_message p))
    (reply_to server st (client (this st)) (id a) p) st.
Proof. unfold expand_content. run_prompt_op st. Qed.

Lemma writer_polish_content_run content focus_areas st a :
  agent (this st) = Some a →
  polish_content server content focus_areas st =
  let p := polish_prompt content focus_areas in
  read_reply "✨ 润色后的内容："
    (MessagesCreate (client (this st)) (id a) (user_message p))
    (reply_to server st (client (this st)) (id a) p) st.
Proof. unfold polish_content. run_prompt_op st. Qed.

Lemma writer_adjust_style_run content target_style st a :
  agent (this st) = Some a →
  adjust_style server content target_style st =
  let p := style_prompt content target_style in
  read_reply ("🎨 风格调整后的内容（" +:+ target_style +:+ "）：")
    (MessagesCreate (client (this st)) (id a) (user_message p))
    (reply_to server st (client (this st)) (id a) p) st.
Proof. unfold adjust_style. run_prompt_op st. Qed.



Lemma writer_research_topic_run topic depth instr st a :
  agent (this st) = Some a →
  depth_instructions !! depth = Some instr →
  research_topic server topic depth st =
  let p := research_template instr topic instr in
  read_reply ("🔍 研究结果（" +:+ topic +:+ "）：")
    (MessagesCreate (client (this st)) (id a) (user_message p))
    (reply_to server st (client (this st)) (id a) p) st.
Proof.
  intros Ha Hd. unfold research_topic, research_prompt, getitem.
  rewrite Hd. revert Ha. run_prompt_op st.
Qed.

Lemma writer_research_topic_bad_depth topic depth st a :
  agent (this st) = Some a →
  depth_instructions !! depth = None →
  research_topic server topic depth st = (Raise (KeyError depth), st).
Proof.
  intros Ha Hd. unfold research_topic, research_prompt, getitem.
  rewrite Hd. revert Ha. intros; open_state st. by py_run.
Qed.
End WriterRuns.

(** *** [writing_agent_local.py] and [ultimate_simple.py] *)

Section LocalRuns.
Context (server : Server).
Import WriterLocal.
Implicit Types (st : State WritingAgent) (a : AgentState).

Lemma local_generate_outline_run topic structure_type st a :
  agent (this st) = Some a →
  generate_outline server topic structure_type st =
  let p := outline_prompt topic structure_type in
  read_reply "📋 生成的文章大纲："
    (MessagesCreate (client (this st)) (id a) (user_message p))
    (reply_to server st (client (this st)) (id a) p) st.
Proof. unfold generate_outline. run_prompt_op st. Qed.

Lemma local_expand_content_run section key_points word_count st a :
  agent (this st) = Some a →
  expand_content server section key_points word_count st =
  let p := expand_prompt section key_points word_count in
  read_reply ("📝 扩展内容（" +:+ section +:+ "）：")
    (MessagesCreate (client (this st)) (id a) (user_message p))
    (reply_to server st (client (this st)) (id a) p) st.
Proof. unfold expand_content. run_prompt_op st. Qed.
End LocalRuns.

Section SimpleRuns.
Context (server : Server).
Import UltimateSimple.

(** [write_article] logs its call and prints nothing; what it returns
    depends on the type of the last message. *)
Lemma write_article_run client agent topic (st : State unit) :
  write_article server client agent topic st =
  let sent :=
    mkState (this st)
      (log_call
         (MessagesCreate client (id agent)
            [mkMessageCreate "user" (article_prompt topic)])
         (world st)) in
  match reply_to server st client (id agent) (article_prompt topic) with
  | Raise e => (Raise e, sent)
  | Return resp =>
      match last (messages resp) with
      | None => (Raise (IndexError "list index out of range"), sent)
      | Some m =>
          if bool_decide (message_type m = "assistant_message")
          then match msg_content m with
               | Some c => (Return c, sent)
               | None => (Raise (no_content m), sent)
               end
          else (Return (Text "写作完成"), sent)
      end
  end.
Proof.
  unfold write_article, reply_to. py_run.
  destruct (srv_messages_create _ _ _ _ _) as [resp|e]; simpl; [| done].
  destruct (last (messages resp)) as [m|]; simpl; [| done].
  destruct (String.eqb_spec (message_type m) "assistant_message") as [E|E];
    simpl;
    [rewrite bool_decide_eq_true_2 by done; by destruct (msg_content m)
    |by rewrite bool_decide_eq_false_2].
Qed.
End SimpleRuns.

(** *** The scripts on concrete inputs *)

Example strftime_noon : strftime noon = "2025-01-02 12:00:05".
Proof. reflexivity. Qed.

Example points_text_two :
  Writer.points_text ["对大家的影响"; "如何应对"]
  = "- 对大家的影响" +:+ LF +:+ "- 如何应对".
Proof. reflexivity. Qed.

Example outline_prompt_mentions_topic :
  occurs "台风的最新发展趋势"
    (Writer.outline_prompt "台风的最新发展趋势" "standard") = true.
Proof. vm_compute. reflexivity. Qed.

Example generate_outline_good :
  (Writer.generate_outline good_server "台风" "standard" ready_writer).1
  = Return (Text "正文").
Proof. reflexivity. Qed.

Example generate_outline_musing :
  (Writer.generate_outline musing_server "台风" "standard" ready_writer).1
  = Raise (AttributeError
             "'ReasoningMessage' object has no attribute 'content'").
Proof. reflexivity. Qed.

Example write_article_good :
  (UltimateSimple.write_article good_server UltimateSimple.local_client
     agent1 "人工智能" (mkState () bare_world)).1
  = Return (Text "正文").
Proof. reflexivity. Qed.

Example write_article_musing :
  (UltimateSimple.write_article musing_server UltimateSimple.local_client
     agent1 "人工智能" (mkState () bare_world)).1
  = Return (Text "写作完成").
Proof. reflexivity. Qed.

Example key_error_text :
  exn_str (KeyError "extreme") = "'extreme'"
  ∧ exn_str (KeyError "it's") = dquote +:+ "it's" +:+ dquote.
Proof. split; reflexivity. Qed.

Example create_writer_without_key :
  (UltimateSimple.create_writer good_server (mkState () bare_world)).1
  = Raise (ValueError "需要设置 DEEPSEEK_API_KEY 环境变量").
Proof. reflexivity. Qed.

Example create_then_progress :
  let created :=
    (Writer.create_writing_agent good_server "writer_agent_v3" None
       fresh_writer).2 in
  (Writer.get_writing_progress good_server created).1
  = Return {[ "current_project" := "写作项目";
              "agent_id" := "agent-1";
              "agent_name" := "writer_agent_v3" ]}.
Proof. reflexivity. Qed.

Example local_project_with_failing_server :
  let r := WriterLocal.start_writing_project flaky_server "台风问题" "新闻稿"
             "大众" "" ready_local in
  r.1 = Return ()
  ∧ WriterLocal.current_project (this r.2) = Some "台风问题"
  ∧ stdout (world r.2)
    = ["更新记忆块失败: 503"; "📝 开始写作项目：台风问题"; "项目类型：新闻稿";
       "目标读者：大众"].
Proof. split_and!; reflexivity. Qed.

Example local_outline_without_agent :
  WriterLocal.generate_outline good_server "台风" "standard" fresh_local
  = (Raise (ValueError "请先创建写作智能体"), fresh_local).
Proof. reflexivity. Qed.

(** * The claims *)

(** C1, as stated, fails for [write_article]: when the reply ends on a
    message that is not an assistant message, the fixed text is returned
    instead of that message's content, whether the message has a content (a
    system message) or not (a reasoning step). On the latter reply the
    methods of WritingAgent, which read the content unguarded, return
    nothing at all. *)
Lemma write_article_drops_last_content :
  let st := mkState () bare_world in
  let resp := mkLettaResponse [answer; thinking] in
  let resp' := mkLettaResponse [answer; notice] in
  (reply_to musing_server st UltimateSimple.local_client (id agent1)
     (UltimateSimple.article_prompt "人工智能") = Return resp
   ∧ messages resp ≠ []
   ∧ ¬ returns_last_content
         (UltimateSimple.write_article musing_server
            UltimateSimple.local_client agent1 "人工智能" st) resp)
  ∧ (reply_to noticing_server st UltimateSimple.local_client (id agent1)
       (UltimateSimple.article_prompt "人工智能") = Return resp'
     ∧ last (messages resp') = Some notice
     ∧ msg_content notice = Some (Text "提示")
     ∧ (UltimateSimple.write_article noticing_server
          UltimateSimple.local_client agent1 "人工智能" st).1
       = Return (Text "写作完成"))
  ∧ (reply_to musing_server ready_writer cloud (id agent1)
       (Writer.outline_prompt "台风" "standard") = Return resp
     ∧ (Writer.generate_outline musing_server "台风" "standard"
          ready_writer).1
       = Raise (AttributeError
                  "'ReasoningMessage' object has no attribute 'content'")).
Proof.
  split_and!; try reflexivity; [done |].
  intros (m & c & Hm & Hc & Hr). vm_compute in Hm, Hr. by simplify_eq.
Qed.

(** C1 (amended): with an agent and a non-empty reply whose last message
    has a content, each of generate_outline, expand_content, polish_content,
    adjust_style and research_topic (in both WritingAgent variants, where
    present) returns exactly that content. write_article returns the content
    of the last message when that message's type is assistant_message, and
    the fixed text 写作完成 otherwise. *)
Theorem prompt_ops_return_last_content (server : Server)
    (resp : LettaResponse) (m : Message) :
  last (messages resp) = Some m →
  (∀ c, msg_content m = Some c →
     (∀ (st : State Writer.WritingAgent) a,
        Writer.agent (this st) = Some a →
        let cl := Writer.client (this st) in
        (∀ topic structure_type,
           reply_to server st cl (id a)
             (Writer.outline_prompt topic structure_type) = Return resp →
           (Writer.generate_outline server topic structure_type st).1
           = Return c)
        ∧ (∀ section key_points word_count,
           reply_to server st cl (id a)
             (Writer.expand_prompt section key_points word_count)
           = Return resp →
           (Writer.expand_content server section key_points word_count st).1
           = Return c)
        ∧ (∀ content focus_areas,
           reply_to server st cl (id a)
             (Writer.polish_prompt content focus_areas) = Return resp →
           (Writer.polish_content server content focus_areas st).1
           = Return c)
        ∧ (∀ content target_style,
           reply_to server st cl (id a)
             (Writer.style_prompt content target_style) = Return resp →
           (Writer.adjust_style server content target_style st).1
           = Return c)
        ∧ (∀ topic depth instr,
           Writer.depth_instructions !! depth = Some instr →
           reply_to server st cl (id a)
             (Writer.research_template instr topic instr) = Return resp →
           (Writer.research_topic server topic depth st).1 = Return c))
     ∧ (∀ (st : State WriterLocal.WritingAgent) a,
        WriterLocal.agent (this st) = Some a →
        let cl := WriterLocal.client (this st) in
        (∀ topic structure_type,
           reply_to server st cl (id a)
             (WriterLocal.outline_prompt topic structure_type)
           = Return resp →
           (WriterLocal.generate_outline server topic structure_type st).1
           = Return c)
        ∧ (∀ section key_points word_count,
           reply_to server st cl (id a)
             (WriterLocal.expand_prompt section key_points word_count)
           = Return resp →
           (WriterLocal.expand_content server section key_points word_count
              st).1
           = Return c)))
  ∧ (∀ (st : State unit) client agent topic,
     reply_to server st client (id agent)
       (UltimateSimple.article_prompt topic) = Return resp →
     let r := UltimateSimple.write_article server client agent topic st in
     (message_type m ≠ "assistant_message" → r.1 = Return (Text "写作完成"))
     ∧ (message_type m = "assistant_message" →
        ∀ c, msg_content m = Some c → r.1 = Return c)).
Proof.
  intros Hm. split.
  - intros c Hc.
    assert (∀ O banner call (st : State O),
      (read_reply banner call (Return resp) st).1 = Return c) as Hread.
    { intros. unfold read_reply. by rewrite Hm, Hc. }
    split; intros st a Ha cl; subst cl; split_and!; intros.
    + erewrite writer_generate_outline_run by done. cbv zeta.
      rewrite H. apply Hread.
    + erewrite writer_expand_content_run by done. cbv zeta.
      rewrite H. apply Hread.
    + erewrite writer_polish_content_run by done. cbv zeta.
      rewrite H. apply Hread.
    + erewrite writer_adjust_style_run by done. cbv zeta.
      rewrite H. apply Hread.
    + erewrite writer_research_topic_run by done. cbv zeta.
      rewrite H0. apply Hread.
    + erewrite local_generate_outline_run by done. cbv zeta.
      rewrite H. apply Hread.
    + erewrite local_expand_content_run by done. cbv zeta.
      rewrite H. apply Hread.
  - intros st client agent topic Hr r. subst r.
    rewrite write_article_run. cbv zeta. rewrite Hr, Hm. split.
    + intros Hty. by rewrite bool_decide_eq_false_2.
    + intros Hty c Hc. by rewrite bool_decide_eq_true_2, Hc.
Qed.

Lemma prompt_ops_return_last_content_witness :
  let resp := mkLettaResponse [thinking; answer] in
  last (messages resp) = Some answer
  ∧ msg_content answer = Some (Text "正文")
  ∧ Writer.agent (this ready_writer) = Some agent1
  ∧ reply_to good_server ready_writer cloud (id agent1)
      (Writer.outline_prompt "台风" "standard") = Return resp
  ∧ (Writer.generate_outline good_server "台风" "standard" ready_writer).1
    = Return (Text "正文").
Proof.
  split_and!; [reflexivity | reflexivity | reflexivity | reflexivity |].
  exact (proj1 (proj1 (proj1 (prompt_ops_return_last_content good_server
                                (mkLettaResponse [thinking; answer]) answer
                                eq_refl)
                         (Text "正文") eq_refl)
                  ready_writer agent1 eq_refl)
           "台风" "standard" eq_refl).
Defined.

(** Proves that a guarded method stops at its guard when no agent is set. *)
Ltac stop_at_guard st := open_state st; reflexivity.

(** C2: without an agent, each of start_writing_project, generate_outline,
    expand_content, polish_content, adjust_style and research_topic (in both
    WritingAgent variants, where present) raises ValueError with the message
    请先创建写作智能体 and leaves the state as it was: no SDK call is logged,
    nothing is printed, no attribute is set. *)
Theorem no_agent_raises_value_error (server : Server) :
  (∀ st : State Writer.WritingAgent,
     Writer.agent (this st) = None →
     let e := ValueError "请先创建写作智能体" in
     (∀ project_name project_type target_audience requirements,
        Writer.start_writing_project server project_name project_type
          target_audience requirements st = (Raise e, st))
     ∧ (∀ topic structure_type,
        Writer.generate_outline server topic structure_type st = (Raise e, st))
     ∧ (∀ section key_points word_count,
        Writer.expand_content server section key_points word_count st = (Raise e, st))
     ∧ (∀ content focus_areas,
        Writer.polish_content server content focus_areas st = (Raise e, st))
     ∧ (∀ content target_style,
        Writer.adjust_style server content target_style st = (Raise e, st))
     ∧ (∀ topic depth,
        Writer.research_topic server topic depth st = (Raise e, st)))
  ∧ (∀ st : State WriterLocal.WritingAgent,
     WriterLocal.agent (this st) = None →
     let e := ValueError "请先创建写作智能体" in
     (∀ project_name project_type target_audience requirements,
        WriterLocal.start_writing_project server project_name project_type
          target_audience requirements st = (Raise e, st))
     ∧ (∀ topic structure_type,
        WriterLocal.generate_outline server topic structure_type st = (Raise e, st))
     ∧ (∀ section key_points word_count,
        WriterLocal.expand_content server section key_points word_count st
        = (Raise e, st))).
Proof.
  split; intros st Hnone e; subst e; split_and!; intros;
    stop_at_guard st.
Qed.

Lemma no_agent_raises_value_error_witness :
  Writer.agent (this fresh_writer) = None
  ∧ Writer.research_topic flaky_server "台风" "deep" fresh_writer
    = (Raise (ValueError "请先创建写作智能体"), fresh_writer)
  ∧ calls_of fresh_writer
      (Writer.research_topic flaky_server "台风" "deep" fresh_writer) = [].
Proof.
  assert (Writer.research_topic flaky_server "台风" "deep" fresh_writer
          = (Raise (ValueError "请先创建写作智能体"), fresh_writer)) as E.
  { apply (proj1 (no_agent_raises_value_error flaky_server) fresh_writer
             eq_refl). }
  split_and!; [reflexivity | exact E |].
  rewrite E. reflexivity.
Defined.

(** The two constructors, run. *)
Lemma writer_init_run (url tok : option string) (st : State unit) :
  Writer.__init__ url tok st =
  let c := if opt_str_truthy tok
           then mkLetta None tok None
           else mkLetta (Some (default "http://localhost:8283" url)) None None
  in (Return (Writer.mkWritingAgent c None "专业、清晰、有逻辑性" None),
      mkState () (log_call (NewLetta c) (world st))).
Proof.
  destruct st as [[] w]. unfold Writer.__init__.
  by destruct (opt_str_truthy tok).
Qed.

Lemma local_init_run (url tok : option string) (st : State unit) :
  WriterLocal.__init__ url tok st =
  if opt_str_truthy tok
  then
    let c := mkLetta None tok None in
    (Return (WriterLocal.mkWritingAgent c "openai/gpt-4o-mini"
               "openai/text-embedding-3-small" None "专业、清晰、有逻辑性" None),
     mkState () (log_call (NewLetta c) (world st)))
  else
    let c := mkLetta (Some (default "http://localhost:8283" url)) None
               (Some 120%Z) in
    (Return (WriterLocal.mkWritingAgent c "deepseek/deepseek-chat"
               "ollama/nomic-embed-text:latest" None "专业、清晰、有逻辑性" None),
     mkState () (log_call (NewLetta c) (world st))).
Proof.
  destruct st as [[] w]. unfold WriterLocal.__init__.
  by destruct (opt_str_truthy tok).
Qed.

(** C3: a WritingAgent constructed with a token (a non-empty string) has its
    client built from that token alone; one constructed without a token
    (token left out, or empty) has its client built from the base URL, which
    is http://localhost:8283 when the keyword is left out. The local variant
    adds a timeout of 120 to the base-URL client. In every case the object
    starts without an agent and the construction is the only SDK call. *)
Theorem client_built_from_token_or_base_url
    (url tok : option string) (st : State unit) :
  (∃ o, Writer.__init__ url tok st
        = (Return o,
           mkState () (log_call (NewLetta (Writer.client o)) (world st)))
        ∧ Writer.agent o = None
        ∧ (∀ t, tok = Some t → t ≠ "" →
             Writer.client o = mkLetta None (Some t) None)
        ∧ (tok = None ∨ tok = Some "" →
             (url = None →
                Writer.client o
                = mkLetta (Some "http://localhost:8283") None None)
             ∧ (∀ u, url = Some u →
                Writer.client o = mkLetta (Some u) None None)))
  ∧ (∃ o, WriterLocal.__init__ url tok st
        = (Return o,
           mkState () (log_call (NewLetta (WriterLocal.client o)) (world st)))
        ∧ WriterLocal.agent o = None
        ∧ (∀ t, tok = Some t → t ≠ "" →
             WriterLocal.client o = mkLetta None (Some t) None)
        ∧ (tok = None ∨ tok = Some "" →
             (url = None →
                WriterLocal.client o
                = mkLetta (Some "http://localhost:8283") None (Some 120%Z))
             ∧ (∀ u, url = Some u →
                WriterLocal.client o = mkLetta (Some u) None (Some 120%Z)))).
Proof.
  rewrite writer_init_run, local_init_run.
  destruct tok as [[|ch t]|]; destruct url as [u|]; simpl;
    (split;
     match goal with |- ∃ o, (Return ?x, _) = _ ∧ _ => exists x end;
     (split; [reflexivity |]); simpl;
     (split; [reflexivity |]);
     (split; [intros ? ? ? | intros [?|?]; split; intros]));
    by simplify_eq/=.
Qed.

Lemma client_built_from_token_or_base_url_witness :
  ∃ o, (Writer.__init__ None (Some "sk-let-demo") (mkState () bare_world)).1
       = Return o
       ∧ "sk-let-demo" ≠ ""
       ∧ Writer.client o = mkLetta None (Some "sk-let-demo") None.
Proof.
  destruct (proj1 (client_built_from_token_or_base_url
                     None (Some "sk-let-demo") (mkState () bare_world)))
    as (o & Hrun & _ & Htok & _).
  exists o. split_and!.
  - by rewrite Hrun.
  - discriminate.
  - apply (Htok "sk-let-demo" eq_refl). discriminate.
Defined.

(** *** Creating the agent and overwriting a block, run *)

Ltac run_update st :=
  intros; open_state st; py_run;
  repeat match goal with
         | |- context [srv_blocks_modify ?s ?h ?c ?i ?l ?v ?r] =>
             destruct (srv_blocks_modify s h c i l v r); simpl
         end;
  reflexivity.

Section WriterBlocks.
Context (server : Server).
Import Writer.
Implicit Types (st : State WritingAgent) (a : AgentState).

(** The style in force once [create_writing_agent] has looked at [style]. *)
Lemma writer_create_calls nm style st :
  calls_of st (create_writing_agent server nm style st) =
  [AgentsCreate (client (this st))
     (create_args nm (if opt_str_truthy style then default "" style
                      else writing_style (this st)))].
Proof.
  open_state st. unfold calls_of, create_writing_agent. py_run.
  destruct (opt_str_truthy style); simpl;
    destruct (srv_agents_create _ _ _ _); simpl;
    rewrite ?issued_say; apply issued_log.
Qed.

Lemma writer_update_run block_label new_value st :
  _update_memory_block server block_label new_value st =
  match agent (this st) with
  | None =>
      (Return (),
       mkState (this st)
         (say ("更新记忆块失败: "
               +:+ "'NoneType' object has no attribute '" +:+ "id" +:+ "'")
            (world st)))
  | Some a =>
      let call := BlocksModify (client (this st)) (id a) block_label
                    new_value false in
      match srv_blocks_modify server (sdk_calls (world st))
              (client (this st)) (id a) block_label new_value false with
      | Return _ => (Return (), mkState (this st) (log_call call (world st)))
      | Raise e =>
          (Return (),
           mkState (this st)
             (say ("更新记忆块失败: " +:+ exn_str e)
                (log_call call (world st))))
      end
  end.
Proof.
  unfold _update_memory_block.
  destruct (agent (this st)) eqn:Ha; revert Ha; run_update st.
Qed.

Lemma writer_start_run project_name project_type target_audience
    requirements st a :
  agent (this st) = Some a →
  start_writing_project server project_name project_type target_audience
    requirements st =
  let info := project_info project_name project_type target_audience
                requirements (clock (world st)) in
  let updated := (_update_memory_block server "current_project" info st).2 in
  (Return (),
   mkState (set_current_project (Some project_name) (this st))
     (say ("目标读者：" +:+ target_audience)
        (say ("项目类型：" +:+ project_type)
           (say ("📝 开始写作项目：" +:+ project_name) (world updated))))).
Proof.
  intros Ha. cbv zeta. rewrite writer_update_run.
  unfold start_writing_project, _update_memory_block.
  revert Ha. run_update st.
Qed.
End WriterBlocks.

Section LocalBlocks.
Context (server : Server).
Import WriterLocal.
Implicit Types (st : State WritingAgent) (a : AgentState).

Lemma local_create_calls nm style st :
  calls_of st (create_writing_agent server nm style st) =
  [AgentsCreate (client (this st))
     (mkCreateAgent nm
        (memory_blocks (if opt_str_truthy style then default "" style
                        else writing_style (this st)))
        (model (this st)) (embedding (this st)) (Some ["web_search"]))].
Proof.
  open_state st. unfold calls_of, create_writing_agent. py_run.
  destruct (opt_str_truthy style); simpl;
    destruct (srv_agents_create _ _ _ _); simpl;
    rewrite ?issued_say; apply issued_log.
Qed.

Lemma local_update_run block_label new_value st :
  _update_memory_block server block_label new_value st =
  match agent (this st) with
  | None =>
      (Return (),
       mkState (this st)
         (say ("更新记忆块失败: "
               +:+ "'NoneType' object has no attribute '" +:+ "id" +:+ "'")
            (world st)))
  | Some a =>
      let call := BlocksModify (client (this st)) (id a) block_label
                    new_value false in
      match srv_blocks_modify server (sdk_calls (world st))
              (client (this st)) (id a) block_label new_value false with
      | Return _ => (Return (), mkState (this st) (log_call call (world st)))
      | Raise e =>
          (Return (),
           mkState (this st)
             (say ("更新记忆块失败: " +:+ exn_str e)
                (log_call call (world st))))
      end
  end.
Proof.
  unfold _update_memory_block.
  destruct (agent (this st)) eqn:Ha; revert Ha; run_update st.
Qed.

Lemma local_start_run project_name project_type target_audience
    requirements st a :
  agent (this st) = Some a →
  start_writing_project server project_name project_type target_audience
    requirements st =
  let info := project_info project_name project_type target_audience
                requirements (clock (world st)) in
  let updated := (_update_memory_block server "current_project" info st).2 in
  (Return (),
   mkState (set_current_project (Some project_name) (this st))
     (say ("目标读者：" +:+ target_audience)
        (say ("项目类型：" +:+ project_type)
           (say ("📝 开始写作项目：" +:+ project_name) (world updated))))).
Proof.
  intros Ha. cbv zeta. rewrite local_update_run.
  unfold start_writing_project, _update_memory_block.
  revert Ha. run_update st.
Qed.
End LocalBlocks.

Section SimpleCreate.
Context (server : Server).
Import UltimateSimple.

Lemma create_writer_run (st : State unit) :
  create_writer server st =
  if opt_str_truthy (environ (world st) !! "DEEPSEEK_API_KEY")
  then
    let w := log_call (AgentsCreate local_client create_args)
               (log_call (NewLetta local_client) (world st)) in
    match srv_agents_create server
            (sdk_calls (world st) ++ [NewLetta local_client])
            local_client create_args with
    | Return agent => (Return (local_client, agent), mkState () w)
    | Raise e => (Raise e, mkState () w)
    end
  else
    (Raise (ValueError "需要设置 DEEPSEEK_API_KEY 环境变量"),
     mkState ()
       (say "   然后重新启动 Letta 服务器"
          (say "   export DEEPSEEK_API_KEY='sk-your-api-key-here'"
             (say "💡 请先设置环境变量："
                (say "❌ 未找到 DEEPSEEK_API_KEY 环境变量" (world st)))))).
Proof.
  destruct st as [[] w]. unfold create_writer, api_key_var. py_run.
  destruct (opt_str_truthy (environ w !! "DEEPSEEK_API_KEY")); simpl;
    [| reflexivity].
  by destruct (srv_agents_create _ _ _ _).
Qed.
End SimpleCreate.

(** C4, as stated, fails: the agent-creation call of create_writer carries
    no tool-name list and its one memory block has no description (the
    blocks of writing_agent.py have none either). *)
Lemma create_writer_passes_no_tools :
  let st := mkState () keyed_world in
  let args := UltimateSimple.create_args in
  calls_of st (UltimateSimple.create_writer good_server st)
  = [NewLetta UltimateSimple.local_client;
     AgentsCreate UltimateSimple.local_client args]
  ∧ ca_tools args = None
  ∧ description <$> ca_memory_blocks args = [None]
  ∧ description <$> ca_memory_blocks (Writer.create_args "写作助手" "专业")
    = [None; None; None].
Proof. split_and!; reflexivity. Qed.

(** C4 (amended): every agent-creation call passes a name, a list of
    memory blocks each with a label and an initial text value, a model
    identifier and an embedding identifier. A description per block is passed
    only by writing_agent_local.py; a tool-name list (web_search) is passed by
    both create_writing_agent methods and not by create_writer. *)
Theorem agent_creation_arguments (server : Server) :
  (∀ (st : State Writer.WritingAgent) nm style,
     ∃ args,
       calls_of st (Writer.create_writing_agent server nm style st)
       = [AgentsCreate (Writer.client (this st)) args]
       ∧ ca_name args = nm
       ∧ label <$> ca_memory_blocks args
         = ["persona"; "writing_skills"; "current_project"]
       ∧ description <$> ca_memory_blocks args = [None; None; None]
       ∧ (∃ persona, value <$> ca_memory_blocks args
            = [persona; Writer.writing_skills_value; "写作项目"])
       ∧ ca_model args = "openai/gpt-4o-mini"
       ∧ ca_embedding args = "openai/text-embedding-3-small"
       ∧ ca_tools args = Some ["web_search"])
  ∧ (∀ (st : State WriterLocal.WritingAgent) nm style,
     ∃ args,
       calls_of st (WriterLocal.create_writing_agent server nm style st)
       = [AgentsCreate (WriterLocal.client (this st)) args]
       ∧ ca_name args = nm
       ∧ label <$> ca_memory_blocks args
         = ["persona"; "writing_skills"; "current_project"]
       ∧ Forall (λ b, is_Some (description b)) (ca_memory_blocks args)
       ∧ (∃ persona, value <$> ca_memory_blocks args
            = [persona; WriterLocal.writing_skills_value; "写作项目"])
       ∧ ca_model args = WriterLocal.model (this st)
       ∧ ca_embedding args = WriterLocal.embedding (this st)
       ∧ ca_tools args = Some ["web_search"])
  ∧ (∀ st : State unit,
     opt_str_truthy (environ (world st) !! "DEEPSEEK_API_KEY") = true →
     ∃ args,
       calls_of st (UltimateSimple.create_writer server st)
       = [NewLetta UltimateSimple.local_client;
          AgentsCreate UltimateSimple.local_client args]
       ∧ ca_name args = "deepseek_writer"
       ∧ label <$> ca_memory_blocks args = ["persona"]
       ∧ description <$> ca_memory_blocks args = [None]
       ∧ value <$> ca_memory_blocks args
         = ["你是专业写作助手，使用 DeepSeek 模型"]
       ∧ ca_model args = "deepseek/deepseek-chat"
       ∧ ca_embedding args = "ollama/nomic-embed-text:latest"
       ∧ ca_tools args = None).
Proof.
  split_and!.
  - intros st nm style. eexists. split; [apply writer_create_calls |].
    split_and!; try reflexivity. by eexists.
  - intros st nm style. eexists. split; [apply local_create_calls |].
    split_and!; try reflexivity.
    + repeat constructor; by eexists.
    + by eexists.
  - intros st Hkey. exists UltimateSimple.create_args.
    split; [| by split_and!].
    rewrite create_writer_run, Hkey. unfold calls_of. cbv zeta.
    destruct (srv_agents_create _ _ _ _); apply issued_log2.
Qed.

Lemma agent_creation_arguments_witness :
  let st := mkState () keyed_world in
  opt_str_truthy (environ (world st) !! "DEEPSEEK_API_KEY") = true
  ∧ ∃ args,
      calls_of st (UltimateSimple.create_writer flaky_server st)
      = [NewLetta UltimateSimple.local_client;
         AgentsCreate UltimateSimple.local_client args]
      ∧ ca_tools args = None.
Proof.
  split; [reflexivity |].
  destruct (proj2 (proj2 (agent_creation_arguments flaky_server))
              (mkState () keyed_world) eq_refl)
    as (args & Hcalls & _ & _ & _ & _ & _ & _ & Htools).
  by exists args.
Defined.

(** C5: _update_memory_block issues at most one SDK call, and that call is
    blocks.modify carrying the new string itself as the block's value: no
    retrieve precedes it and nothing is merged. With an agent the call is
    always issued; the block update of start_writing_project is this call
    with the freshly formatted project description. *)
Theorem update_overwrites_block (server : Server) :
  (∀ (st : State Writer.WritingAgent) block_label new_value,
     calls_of st (Writer._update_memory_block server block_label new_value st)
     = match Writer.agent (this st) with
       | Some a => [BlocksModify (Writer.client (this st)) (id a)
                      block_label new_value false]
       | None => []
       end)
  ∧ (∀ (st : State Writer.WritingAgent) a project_name project_type
       target_audience requirements,
     Writer.agent (this st) = Some a →
     calls_of st
       (Writer.start_writing_project server project_name project_type
          target_audience requirements st)
     = [BlocksModify (Writer.client (this st)) (id a) "current_project"
          (Writer.project_info project_name project_type target_audience
             requirements (clock (world st))) false])
  ∧ (∀ (st : State WriterLocal.WritingAgent) block_label new_value,
     calls_of st
       (WriterLocal._update_memory_block server block_label new_value st)
     = match WriterLocal.agent (this st) with
       | Some a => [BlocksModify (WriterLocal.client (this st)) (id a)
                      block_label new_value false]
       | None => []
       end)
  ∧ (∀ (st : State WriterLocal.WritingAgent) a project_name project_type
       target_audience requirements,
     WriterLocal.agent (this st) = Some a →
     calls_of st
       (WriterLocal.start_writing_project server project_name project_type
          target_audience requirements st)
     = [BlocksModify (WriterLocal.client (this st)) (id a) "current_project"
          (WriterLocal.project_info project_name project_type target_audience
             requirements (clock (world st))) false]).
Proof.
  assert (∀ (st : State Writer.WritingAgent) l v,
    calls_of st (Writer._update_memory_block server l v st)
    = match Writer.agent (this st) with
      | Some a => [BlocksModify (Writer.client (this st)) (id a) l v false]
      | None => []
      end) as HW.
  { intros st l v. rewrite writer_update_run. unfold calls_of.
    destruct (Writer.agent (this st)); cbv zeta;
      [destruct (srv_blocks_modify _ _ _ _ _ _ _) |]; simpl;
      rewrite ?issued_say; auto using issued_log, issued_same. }
  assert (∀ (st : State WriterLocal.WritingAgent) l v,
    calls_of st (WriterLocal._update_memory_block server l v st)
    = match WriterLocal.agent (this st) with
      | Some a =>
          [BlocksModify (WriterLocal.client (this st)) (id a) l v false]
      | None => []
      end) as HL.
  { intros st l v. rewrite local_update_run. unfold calls_of.
    destruct (WriterLocal.agent (this st)); cbv zeta;
      [destruct (srv_blocks_modify _ _ _ _ _ _ _) |]; simpl;
      rewrite ?issued_say; auto using issued_log, issued_same. }
  split_and!; [exact HW | | exact HL |].
  - intros st a pn pt ta rq Ha.
    erewrite writer_start_run by done. cbv zeta.
    specialize (HW st "current_project"
                  (Writer.project_info pn pt ta rq (clock (world st)))).
    rewrite Ha in HW. unfold calls_of in *. simpl.
    by rewrite !issued_say.
  - intros st a pn pt ta rq Ha.
    erewrite local_start_run by done. cbv zeta.
    specialize (HL st "current_project"
                  (WriterLocal.project_info pn pt ta rq (clock (world st)))).
    rewrite Ha in HL. unfold calls_of in *. simpl.
    by rewrite !issued_say.
Qed.

Lemma update_overwrites_block_witness :
  Writer.agent (this ready_writer) = Some agent1
  ∧ calls_of ready_writer
      (Writer.start_writing_project flaky_server "台风问题" "新闻稿" "大众" ""
         ready_writer)
    = [BlocksModify cloud "agent-1" "current_project"
         (Writer.project_info "台风问题" "新闻稿" "大众" "" noon) false].
Proof.
  split; [reflexivity |].
  apply (proj1 (proj2 (update_overwrites_block flaky_server))
           ready_writer agent1 "台风问题" "新闻稿" "大众" "" eq_refl).
Defined.

(** *** The depth table *)

Lemma depth_instructions_shallow :
  Writer.depth_instructions !! "shallow" = Some "提供基础信息和概述".
Proof. reflexivity. Qed.

Lemma depth_instructions_medium :
  Writer.depth_instructions !! "medium" = Some "提供详细信息和多个角度".
Proof. reflexivity. Qed.

Lemma depth_instructions_deep :
  Writer.depth_instructions !! "deep" = Some "提供深入分析和专业见解".
Proof. reflexivity. Qed.

Lemma depth_instructions_other (depth : string) :
  depth ∉ ["shallow"; "medium"; "deep"] →
  Writer.depth_instructions !! depth = None.
Proof.
  intros Hout. unfold Writer.depth_instructions.
  rewrite !lookup_insert_ne, lookup_singleton_ne; [done | ..];
    intros <-; apply Hout; set_solver.
Qed.

Lemma depth_instructions_known (depth : string) :
  depth ∈ ["shallow"; "medium"; "deep"] →
  is_Some (Writer.depth_instructions !! depth).
Proof.
  rewrite !elem_of_cons, elem_of_nil.
  intros [->|[->|[->|[]]]]; by eexists.
Qed.

(** Finds an interpolated argument in a template. *)
Ltac in_template :=
  solve [ apply Substring_refl
        | apply Substring_mid
        | apply Substring_app_r; in_template ].



(** C7: create_writer raises ValueError without having built a client or
    created an agent exactly when DEEPSEEK_API_KEY is unset or empty; the
    message is then 需要设置 DEEPSEEK_API_KEY 环境变量. When the variable is
    set, the client is built for http://localhost:8283 and the agent
    creation call is issued; if that call succeeds, the client and the agent
    are returned. *)
Theorem create_writer_gated_by_api_key (server : Server) (st : State unit) :
  let key := environ (world st) !! "DEEPSEEK_API_KEY" in
  let r := UltimateSimple.create_writer server st in
  ((is_ValueError r.1 = true ∧ calls_of st r = [])
   ↔ (key = None ∨ key = Some ""))
  ∧ (key = None ∨ key = Some "" →
     r.1 = Raise (ValueError "需要设置 DEEPSEEK_API_KEY 环境变量"))
  ∧ (∀ k, key = Some k → k ≠ "" →
     calls_of st r
     = [NewLetta (mkLetta (Some "http://localhost:8283") None None);
        AgentsCreate UltimateSimple.local_client UltimateSimple.create_args]
     ∧ ∀ agent,
         srv_agents_create server
           (sdk_calls (world st) ++ [NewLetta UltimateSimple.local_client])
           UltimateSimple.local_client UltimateSimple.create_args
         = Return agent →
         r.1 = Return (UltimateSimple.local_client, agent)).
Proof.
  intros key r. subst r. rewrite create_writer_run. fold key.
  assert (opt_str_truthy key = false ↔ key = None ∨ key = Some "") as Hfalsy.
  { destruct key as [[|c k]|]; simpl; split; try done; auto.
    intros [|]; done. }
  destruct (opt_str_truthy key) eqn:Hkey; cbv zeta.
  - assert (¬ (key = None ∨ key = Some "")) as Hset
      by (intros Hset; by apply Hfalsy in Hset).
    split_and!.
    + split; [| done]. intros [_ Hcalls]. exfalso.
      unfold calls_of in Hcalls.
      destruct (srv_agents_create _ _ _ _); simpl in Hcalls;
        by rewrite issued_log2 in Hcalls.
    + done.
    + intros k Hk Hne. split.
      * unfold calls_of.
        destruct (srv_agents_create _ _ _ _); apply issued_log2.
      * intros agent ->. done.
  - assert (key = None ∨ key = Some "") as Hunset by by apply Hfalsy.
    split_and!.
    + split; [done |]. intros _. split; [done |].
      unfold calls_of. simpl. rewrite !issued_say. apply issued_same.
    + done.
    + intros k Hk Hne. destruct Hunset; simplify_eq.
Qed.

Lemma create_writer_gated_by_api_key_witness :
  let st := mkState () keyed_world in
  environ (world st) !! "DEEPSEEK_API_KEY" = Some "sk-test"
  ∧ "sk-test" ≠ ""
  ∧ calls_of st (UltimateSimple.create_writer good_server st)
    = [NewLetta (mkLetta (Some "http://localhost:8283") None None);
       AgentsCreate UltimateSimple.local_client UltimateSimple.create_args].
Proof.
  assert ("sk-test" ≠ "") as Hne by discriminate.
  split_and!; [reflexivity | exact Hne |].
  exact (proj1 (proj2 (proj2 (create_writer_gated_by_api_key good_server
                                (mkState () keyed_world)))
                  "sk-test" eq_refl Hne)).
Defined.

(** *** Reading the progress, run *)

Ltac run_progress st :=
  intros; open_state st; py_run;
  repeat match goal with
         | |- context [srv_blocks_retrieve ?s ?h ?c ?i ?l] =>
             destruct (srv_blocks_retrieve s h c i l); simpl
         end;
  reflexivity.

Lemma writer_progress_run (server : Server) (st : State Writer.WritingAgent) :
  Writer.get_writing_progress server st =
  match Writer.agent (this st) with
  | None => (Return {[ "error" := "智能体未创建" ]}, st)
  | Some a =>
      let asked :=
        mkState (this st)
          (log_call (BlocksRetrieve (Writer.client (this st)) (id a)
                       "current_project") (world st)) in
      match srv_blocks_retrieve server (sdk_calls (world st))
              (Writer.client (this st)) (id a) "current_project" with
      | Return project_block =>
          (Return {[ "current_project" := block_value project_block;
                     "agent_id" := id a;
                     "agent_name" := name a ]}, asked)
      | Raise e =>
          (Return {[ "error" := "获取进度失败: " +:+ exn_str e ]}, asked)
      end
  end.
Proof.
  unfold Writer.get_writing_progress.
  destruct (Writer.agent (this st)) eqn:Ha; revert Ha; run_progress st.
Qed.

Lemma local_progress_run (server : Server)
    (st : State WriterLocal.WritingAgent) :
  WriterLocal.get_writing_progress server st =
  match WriterLocal.agent (this st) with
  | None => (Return {[ "error" := "智能体未创建" ]}, st)
  | Some a =>
      let asked :=
        mkState (this st)
          (log_call (BlocksRetrieve (WriterLocal.client (this st)) (id a)
                       "current_project") (world st)) in
      match srv_blocks_retrieve server (sdk_calls (world st))
              (WriterLocal.client (this st)) (id a) "current_project" with
      | Return project_block =>
          (Return {[ "current_project" := block_value project_block;
                     "agent_id" := id a;
                     "agent_name" := name a ]}, asked)
      | Raise e =>
          (Return {[ "error" := "获取进度失败: " +:+ exn_str e ]}, asked)
      end
  end.
Proof.
  unfold WriterLocal.get_writing_progress.
  destruct (WriterLocal.agent (this st)) eqn:Ha; revert Ha; run_progress st.
Qed.

(** C8: get_writing_progress never raises. In every state and against every
    server it returns a dictionary; without an agent the dictionary has the
    key error (and no call is made); when the block retrieval raises, the
    exception is caught and the dictionary has the key error, holding the
    exception's text. *)
Theorem get_writing_progress_never_raises (server : Server) :
  (∀ st : State Writer.WritingAgent,
     ∃ d : gmap string string,
       (Writer.get_writing_progress server st).1 = Return d
       ∧ (Writer.agent (this st) = None →
          d !! "error" = Some "智能体未创建"
          ∧ (Writer.get_writing_progress server st).2 = st)
       ∧ (∀ a e,
          Writer.agent (this st) = Some a →
          srv_blocks_retrieve server (sdk_calls (world st))
            (Writer.client (this st)) (id a) "current_project" = Raise e →
          d !! "error" = Some ("获取进度失败: " +:+ exn_str e)))
  ∧ (∀ st : State WriterLocal.WritingAgent,
     ∃ d : gmap string string,
       (WriterLocal.get_writing_progress server st).1 = Return d
       ∧ (WriterLocal.agent (this st) = None →
          d !! "error" = Some "智能体未创建"
          ∧ (WriterLocal.get_writing_progress server st).2 = st)
       ∧ (∀ a e,
          WriterLocal.agent (this st) = Some a →
          srv_blocks_retrieve server (sdk_calls (world st))
            (WriterLocal.client (this st)) (id a) "current_project" = Raise e →
          d !! "error" = Some ("获取进度失败: " +:+ exn_str e))).
Proof.
  split; intros st.
  - rewrite writer_progress_run.
    destruct (Writer.agent (this st)) as [a|]; cbv zeta.
    + destruct (srv_blocks_retrieve _ _ _ _ _) as [b|e] eqn:Hr;
        eexists; (split; [reflexivity |]); (split; [done |]);
        intros a' e' [= <-] Hr'; rewrite Hr in Hr'; simplify_eq.
      apply lookup_singleton_eq.
    + eexists. split; [reflexivity |]. split; [| done].
      intros _. split; [apply lookup_singleton_eq | done].
  - rewrite local_progress_run.
    destruct (WriterLocal.agent (this st)) as [a|]; cbv zeta.
    + destruct (srv_blocks_retrieve _ _ _ _ _) as [b|e] eqn:Hr;
        eexists; (split; [reflexivity |]); (split; [done |]);
        intros a' e' [= <-] Hr'; rewrite Hr in Hr'; simplify_eq.
      apply lookup_singleton_eq.
    + eexists. split; [reflexivity |]. split; [| done].
      intros _. split; [apply lookup_singleton_eq | done].
Qed.

Lemma get_writing_progress_never_raises_witness :
  Writer.agent (this ready_writer) = Some agent1
  ∧ srv_blocks_retrieve flaky_server (sdk_calls (world ready_writer))
      (Writer.client (this ready_writer)) (id agent1) "current_project"
    = Raise (ApiError "503")
  ∧ ∃ d : gmap string string,
      (Writer.get_writing_progress flaky_server ready_writer).1 = Return d
      ∧ d !! "error" = Some ("获取进度失败: " +:+ "503").
Proof.
  split_and!; [reflexivity | reflexivity |].
  destruct (proj1 (get_writing_progress_never_raises flaky_server)
              ready_writer) as (d & Hd & _ & Herr).
  exists d. split; [exact Hd |].
  exact (Herr agent1 (ApiError "503") eq_refl eq_refl).
Defined.

(** C9: with an agent, start_writing_project always completes normally and
    sets current_project to the supplied name, whatever the server does; when
    the block update raises, the failure is only printed, so the local state
    is updated although the remote block was not. *)
Theorem start_writing_project_always_completes (server : Server) :
  (∀ (st : State Writer.WritingAgent) a project_name project_type
       target_audience requirements,
     Writer.agent (this st) = Some a →
     let r := Writer.start_writing_project server project_name project_type
                target_audience requirements st in
     r.1 = Return ()
     ∧ Writer.current_project (this r.2) = Some project_name
     ∧ ∀ e,
         srv_blocks_modify server (sdk_calls (world st))
           (Writer.client (this st)) (id a) "current_project"
           (Writer.project_info project_name project_type target_audience
              requirements (clock (world st))) false = Raise e →
         ("更新记忆块失败: " +:+ exn_str e) ∈ stdout (world r.2))
  ∧ (∀ (st : State WriterLocal.WritingAgent) a project_name project_type
       target_audience requirements,
     WriterLocal.agent (this st) = Some a →
     let r := WriterLocal.start_writing_project server project_name
                project_type target_audience requirements st in
     r.1 = Return ()
     ∧ WriterLocal.current_project (this r.2) = Some project_name
     ∧ ∀ e,
         srv_blocks_modify server (sdk_calls (world st))
           (WriterLocal.client (this st)) (id a) "current_project"
           (WriterLocal.project_info project_name project_type target_audience
              requirements (clock (world st))) false = Raise e →
         ("更新记忆块失败: " +:+ exn_str e) ∈ stdout (world r.2)).
Proof.
  split; intros st a pn pt ta rq Ha r; subst r.
  - erewrite writer_start_run by done. cbv zeta.
    split_and!; [done | done |]. intros e He.
    rewrite writer_update_run, Ha. cbv zeta. rewrite He.
    unfold say, log_call. simpl. set_solver.
  - erewrite local_start_run by done. cbv zeta.
    split_and!; [done | done |]. intros e He.
    rewrite local_update_run, Ha. cbv zeta. rewrite He.
    unfold say, log_call. simpl. set_solver.
Qed.

Lemma start_writing_project_always_completes_witness :
  let r := Writer.start_writing_project flaky_server "台风问题" "新闻稿" "大众"
             "" ready_writer in
  Writer.agent (this ready_writer) = Some agent1
  ∧ r.1 = Return ()
  ∧ Writer.current_project (this r.2) = Some "台风问题"
  ∧ ("更新记忆块失败: " +:+ "503") ∈ stdout (world r.2).
Proof.
  destruct (proj1 (start_writing_project_always_completes flaky_server)
              ready_writer agent1 "台风问题" "新闻稿" "大众" "" eq_refl)
    as (Hret & Hproj & Hout).
  split_and!; [reflexivity | exact Hret | exact Hproj |].
  exact (Hout (ApiError "503") eq_refl).
Defined.

(** C10, as stated, fails: without an agent, research_topic with a depth
    outside the table stops at the agent guard with ValueError; no KeyError
    is raised. *)
Lemma research_topic_guard_precedes_lookup :
  ("extreme" ∉ ["shallow"; "medium"; "deep"])
  ∧ Writer.agent (this fresh_writer) = None
  ∧ Writer.research_topic good_server "台风" "extreme" fresh_writer
    = (Raise (ValueError "请先创建写作智能体"), fresh_writer)
  ∧ is_KeyError
      (Writer.research_topic good_server "台风" "extreme" fresh_writer).1
    = false.
Proof.
  split_and!; try reflexivity.
  rewrite !elem_of_cons, elem_of_nil. intros [|[|[|[]]]]; discriminate.
Qed.

(** C10 (amended): once an agent exists, research_topic looks the depth up
    unguarded. For shallow, medium and deep the lookup succeeds, giving the
    texts of the table, and the one prompt sent contains that text; for any
    other depth the call raises KeyError for that depth and leaves the state
    untouched, so no remote call is made. Without an agent the agent check
    comes first: the call raises ValueError whatever the depth. *)
Theorem research_topic_depth_lookup (server : Server)
    (st : State Writer.WritingAgent) (topic depth : string) :
  let r := Writer.research_topic server topic depth st in
  (Writer.agent (this st) = None →
   r = (Raise (ValueError "请先创建写作智能体"), st))
  ∧ (∀ a : AgentState,
     Writer.agent (this st) = Some a →
     (Writer.depth_instructions !! "shallow" = Some "提供基础信息和概述"
      ∧ Writer.depth_instructions !! "medium" = Some "提供详细信息和多个角度"
      ∧ Writer.depth_instructions !! "deep" = Some "提供深入分析和专业见解")
     ∧ (depth ∈ ["shallow"; "medium"; "deep"] →
        ∃ instr p,
          Writer.depth_instructions !! depth = Some instr
          ∧ calls_of st r
            = [MessagesCreate (Writer.client (this st)) (id a)
                 [mkMessageCreate "user" p]]
          ∧ Substring instr p)
     ∧ (depth ∉ ["shallow"; "medium"; "deep"] →
        r = (Raise (KeyError depth), st) ∧ calls_of st r = [])).
Proof.
  intros r. subst r. split.
  { intros Hnone. stop_at_guard st. }
  intros a Ha. split; [| split].
  - split_and!; reflexivity.
  - intros [instr Hd]%depth_instructions_known.
    exists instr, (Writer.research_template instr topic instr).
    split; [done |].
    erewrite writer_research_topic_run by done. cbv zeta.
    split; [apply read_reply_calls |].
    unfold Writer.research_template. in_template.
  - intros Hd%depth_instructions_other.
    erewrite writer_research_topic_bad_depth by done.
    split; [done |]. apply issued_same.
Qed.

Lemma research_topic_depth_lookup_witness :
  (Writer.agent (this ready_writer) = Some agent1
   ∧ ("extreme" ∉ ["shallow"; "medium"; "deep"])
   ∧ Writer.research_topic good_server "台风" "extreme" ready_writer
     = (Raise (KeyError "extreme"), ready_writer))
  ∧ (Writer.agent (this fresh_writer) = None
     ∧ Writer.research_topic good_server "台风" "extreme" fresh_writer
       = (Raise (ValueError "请先创建写作智能体"), fresh_writer)).
Proof.
  assert ("extreme" ∉ ["shallow"; "medium"; "deep"]) as Hout.
  { rewrite !elem_of_cons, elem_of_nil. intros [|[|[|[]]]]; discriminate. }
  split; split_and!; [reflexivity | exact Hout | | reflexivity |].
  - exact (proj1 (proj2 (proj2 (proj2 (research_topic_depth_lookup
                                         good_server ready_writer "台风"
                                         "extreme")
                                  agent1 eq_refl))
                    Hout)).
  - exact (proj1 (research_topic_depth_lookup good_server fresh_writer
                    "台风" "extreme") eq_refl).
Defined.


(** * Further properties of the scripts *)

(** *** Prompt methods: failures, empty replies and effects *)

Lemma printed_by_same {O A} (st : State O) (a : outcome A) :
  printed_by st (a, st) = [].
Proof. unfold printed_by. apply drop_all. Qed.

Lemma printed_by_log {O A} (st : State O) (a : outcome A) (o : O)
    (c : SdkCall) :
  printed_by st (a, mkState o (log_call c (world st))) = [].
Proof. unfold printed_by. apply drop_all. Qed.

Lemma printed_by_say2 {O A} (st : State O) (a : outcome A) (o : O)
    (c : SdkCall) (l1 l2 : string) :
  printed_by st (a, mkState o (say l2 (say l1 (log_call c (world st)))))
  = [l1; l2].
Proof.
  unfold printed_by. simpl. rewrite <- app_assoc. apply drop_app_length.
Qed.

Lemma run_call_read_reply (server : Server) (c : writer_call)
    (st : State Writer.WritingAgent) (a : AgentState) (p : string) :
  Writer.agent (this st) = Some a →
  prompt_of c = Some p →
  run_call server c st =
  read_reply (banner_of c)
    (MessagesCreate (Writer.client (this st)) (id a)
       [mkMessageCreate "user" p])
    (reply_to server st (Writer.client (this st)) (id a) p) st.
Proof.
  intros Ha Hp. destruct c; simpl in Hp.
  - injection Hp as <-. by apply writer_generate_outline_run.
  - injection Hp as <-. by apply writer_expand_content_run.
  - injection Hp as <-. by apply writer_polish_content_run.
  - injection Hp as <-. by apply writer_adjust_style_run.
  - destruct (Writer.depth_instructions !! depth) as [instr|] eqn:Hd;
      [| done].
    injection Hp as <-. by apply writer_research_topic_run.
Qed.

Lemma run_local_call_read_reply (server : Server) (c : local_call)
    (st : State WriterLocal.WritingAgent) (a : AgentState) :
  WriterLocal.agent (this st) = Some a →
  run_local_call server c st =
  read_reply (local_banner_of c)
    (MessagesCreate (WriterLocal.client (this st)) (id a)
       [mkMessageCreate "user" (local_prompt_of c)])
    (reply_to server st (WriterLocal.client (this st)) (id a)
       (local_prompt_of c)) st.
Proof.
  intros Ha. destruct c.
  - by apply local_generate_outline_run.
  - by apply local_expand_content_run.
Qed.

(** X1: when the remote call of a prompt method raises, the method raises
    the same exception; the call is on the log, nothing has been printed and
    the object is as before. This holds for the five prompt methods of
    writing_agent.py, the two of writing_agent_local.py and write_article. *)
Theorem prompt_failure_propagates (server : Server) (e : exn) :
  (∀ (st : State Writer.WritingAgent) a call p,
     Writer.agent (this st) = Some a →
     prompt_of call = Some p →
     reply_to server st (Writer.client (this st)) (id a) p = Raise e →
     run_call server call st
     = (Raise e, sent st (Writer.client (this st)) (id a) p))
  ∧ (∀ (st : State WriterLocal.WritingAgent) a call,
     WriterLocal.agent (this st) = Some a →
     reply_to server st (WriterLocal.client (this st)) (id a)
       (local_prompt_of call) = Raise e →
     run_local_call server call st
     = (Raise e,
        sent st (WriterLocal.client (this st)) (id a) (local_prompt_of call)))
  ∧ (∀ (st : State unit) client agent topic,
     reply_to server st client (id agent)
       (UltimateSimple.article_prompt topic) = Raise e →
     UltimateSimple.write_article server client agent topic st
     = (Raise e,
        sent st client (id agent) (UltimateSimple.article_prompt topic))).
Proof.
  split_and!.
  - intros st a call p Ha Hp He.
    erewrite run_call_read_reply by done. by rewrite He.
  - intros st a call Ha He.
    erewrite run_local_call_read_reply by done. by rewrite He.
  - intros st client agent topic He.
    rewrite write_article_run. cbv zeta. by rewrite He.
Qed.

Lemma prompt_failure_propagates_witness :
  Writer.agent (this ready_writer) = Some agent1
  ∧ prompt_of (ResearchTopic "台风" "deep")
    = Some (Writer.research_template "提供深入分析和专业见解" "台风"
              "提供深入分析和专业见解")
  ∧ Writer.research_topic dead_server "台风" "deep" ready_writer
    = (Raise (ApiError "connection refused"),
       sent ready_writer cloud "agent-1"
         (Writer.research_template "提供深入分析和专业见解" "台风"
            "提供深入分析和专业见解")).
Proof.
  split_and!; [reflexivity | reflexivity |].
  exact (proj1 (prompt_failure_propagates dead_server
                  (ApiError "connection refused"))
           ready_writer agent1 (ResearchTopic "台风" "deep") _
           eq_refl eq_refl eq_refl).
Defined.

(** X2: when the remote call answers with an empty message list, a prompt
    method raises IndexError (list index out of range) after the call, with
    nothing printed and the object as before; so does write_article. *)
Theorem empty_reply_raises_index_error (server : Server)
    (resp : LettaResponse) :
  messages resp = [] →
  let oops := IndexError "list index out of range" in
  (∀ (st : State Writer.WritingAgent) a call p,
     Writer.agent (this st) = Some a →
     prompt_of call = Some p →
     reply_to server st (Writer.client (this st)) (id a) p = Return resp →
     run_call server call st
     = (Raise oops, sent st (Writer.client (this st)) (id a) p))
  ∧ (∀ (st : State WriterLocal.WritingAgent) a call,
     WriterLocal.agent (this st) = Some a →
     reply_to server st (WriterLocal.client (this st)) (id a)
       (local_prompt_of call) = Return resp →
     run_local_call server call st
     = (Raise oops,
        sent st (WriterLocal.client (this st)) (id a) (local_prompt_of call)))
  ∧ (∀ (st : State unit) client agent topic,
     reply_to server st client (id agent)
       (UltimateSimple.article_prompt topic) = Return resp →
     UltimateSimple.write_article server client agent topic st
     = (Raise oops,
        sent st client (id agent) (UltimateSimple.article_prompt topic))).
Proof.
  intros Hempty oops. subst oops. split_and!.
  - intros st a call p Ha Hp Hr.
    erewrite run_call_read_reply by done.
    unfold read_reply. by rewrite Hr, Hempty.
  - intros st a call Ha Hr.
    erewrite run_local_call_read_reply by done.
    unfold read_reply. by rewrite Hr, Hempty.
  - intros st client agent topic Hr.
    rewrite write_article_run. cbv zeta. by rewrite Hr, Hempty.
Qed.

Lemma empty_reply_raises_index_error_witness :
  messages (mkLettaResponse []) = []
  ∧ reply_to mute_server (mkState () bare_world) UltimateSimple.local_client
      (id agent1) (UltimateSimple.article_prompt "人工智能")
    = Return (mkLettaResponse [])
  ∧ (UltimateSimple.write_article mute_server UltimateSimple.local_client
       agent1 "人工智能" (mkState () bare_world)).1
    = Raise (IndexError "list index out of range").
Proof.
  split_and!; [reflexivity | reflexivity |].
  rewrite (proj2 (proj2 (empty_reply_raises_index_error mute_server
                           (mkLettaResponse []) eq_refl))
             (mkState () bare_world) UltimateSimple.local_client agent1
             "人工智能" eq_refl).
  reflexivity.
Defined.

(** X3: a prompt method whose remote call answers with a non-empty reply
    issues exactly one SDK call, a messages.create to the stored agent with
    one user message holding the prompt, and leaves the object as it was.
    When the last message of the reply has a content, the method returns it
    and prints its banner and then the content; when it has none (a
    reasoning step, a tool call), the method raises the AttributeError of
    reading content off that message and prints nothing. write_article
    issues the same single call and never prints. *)
Theorem prompt_success_effects (server : Server) (resp : LettaResponse)
    (m : Message) :
  last (messages resp) = Some m →
  let no_content_error :=
    AttributeError
      ("'" +:+ class_name m +:+ "' object has no attribute 'content'") in
  (∀ (st : State Writer.WritingAgent) a call p,
     Writer.agent (this st) = Some a →
     prompt_of call = Some p →
     reply_to server st (Writer.client (this st)) (id a) p = Return resp →
     let r := run_call server call st in
     calls_of st r
     = [MessagesCreate (Writer.client (this st)) (id a)
          [mkMessageCreate "user" p]]
     ∧ this r.2 = this st
     ∧ (∀ c, msg_content m = Some c →
          r.1 = Return c
          ∧ printed_by st r = [banner_of call; content_str c])
     ∧ (msg_content m = None →
          r.1 = Raise no_content_error ∧ printed_by st r = []))
  ∧ (∀ (st : State WriterLocal.WritingAgent) a call,
     WriterLocal.agent (this st) = Some a →
     reply_to server st (WriterLocal.client (this st)) (id a)
       (local_prompt_of call) = Return resp →
     let r := run_local_call server call st in
     calls_of st r
     = [MessagesCreate (WriterLocal.client (this st)) (id a)
          [mkMessageCreate "user" (local_prompt_of call)]]
     ∧ this r.2 = this st
     ∧ (∀ c, msg_content m = Some c →
          r.1 = Return c
          ∧ printed_by st r = [local_banner_of call; content_str c])
     ∧ (msg_content m = None →
          r.1 = Raise no_content_error ∧ printed_by st r = []))
  ∧ (∀ (st : State unit) client agent topic,
     reply_to server st client (id agent)
       (UltimateSimple.article_prompt topic) = Return resp →
     let r := UltimateSimple.write_article server client agent topic st in
     calls_of st r
     = [MessagesCreate client (id agent)
          [mkMessageCreate "user" (UltimateSimple.article_prompt topic)]]
     ∧ printed_by st r = []).
Proof.
  intros Hm oops. subst oops.
  assert (∀ O banner call (st : State O),
    let r := read_reply banner call (Return resp) st in
    (∀ c, msg_content m = Some c →
       r.1 = Return c ∧ printed_by st r = [banner; content_str c])
    ∧ (msg_content m = None →
       r.1 = Raise (no_content m) ∧ printed_by st r = [])) as Hread.
  { intros O banner call st r. subst r. unfold read_reply. rewrite Hm.
    split.
    - intros c ->. split; [done | apply printed_by_say2].
    - intros ->. split; [done | apply printed_by_log]. }
  split_and!.
  - intros st a call p Ha Hp Hr r. subst r.
    erewrite run_call_read_reply by done. rewrite Hr.
    split; [apply read_reply_calls |]. split; [apply read_reply_self |].
    apply Hread.
  - intros st a call Ha Hr r. subst r.
    erewrite run_local_call_read_reply by done. rewrite Hr.
    split; [apply read_reply_calls |]. split; [apply read_reply_self |].
    apply Hread.
  - intros st client agent topic Hr r. subst r.
    rewrite write_article_run. cbv zeta. rewrite Hr, Hm.
    destruct (bool_decide _); [destruct (msg_content m) |];
      (split; [apply issued_log | apply printed_by_log]).
Qed.

Lemma prompt_success_effects_witness :
  let r := Writer.adjust_style good_server "正文" "轻松易懂" ready_writer in
  let r' := Writer.adjust_style musing_server "正文" "轻松易懂" ready_writer in
  (last (messages (mkLettaResponse [thinking; answer])) = Some answer
   ∧ Writer.agent (this ready_writer) = Some agent1
   ∧ msg_content answer = Some (Text "正文")
   ∧ r.1 = Return (Text "正文")
   ∧ printed_by ready_writer r
     = ["🎨 风格调整后的内容（" +:+ "轻松易懂" +:+ "）："; "正文"])
  ∧ (last (messages (mkLettaResponse [answer; thinking])) = Some thinking
     ∧ msg_content thinking = None
     ∧ r'.1 = Raise (AttributeError
                       ("'" +:+ "ReasoningMessage"
                        +:+ "' object has no attribute 'content'"))
     ∧ printed_by ready_writer r' = []).
Proof.
  destruct (proj1 (prompt_success_effects good_server
                     (mkLettaResponse [thinking; answer]) answer eq_refl)
              ready_writer agent1 (AdjustStyle "正文" "轻松易懂") _
              eq_refl eq_refl eq_refl) as (_ & _ & Hsome & _).
  destruct (Hsome (Text "正文") eq_refl) as [Hret Hout].
  destruct (proj1 (prompt_success_effects musing_server
                     (mkLettaResponse [answer; thinking]) thinking eq_refl)
              ready_writer agent1 (AdjustStyle "正文" "轻松易懂") _
              eq_refl eq_refl eq_refl) as (_ & _ & _ & Hnone).
  destruct (Hnone eq_refl) as [Hraise Hquiet].
  split; split_and!;
    [reflexivity | reflexivity | reflexivity | exact Hret | exact Hout
    |reflexivity | reflexivity | exact Hraise | exact Hquiet].
Defined.

(** *** Creating the agent *)

Ltac run_create st :=
  intros; open_state st; unfold style_in_force; py_run;
  repeat match goal with
         | |- context [opt_str_truthy ?x] => destruct (opt_str_truthy x); simpl
         | |- context [srv_agents_create ?s ?h ?c ?a] =>
             destruct (srv_agents_create s h c a); simpl
         end;
  reflexivity.

Lemma writer_create_run (server : Server) (st : State Writer.WritingAgent)
    (nm : string) (style : option string) :
  Writer.create_writing_agent server nm style st =
  let o := Writer.set_writing_style
             (style_in_force style (Writer.writing_style (this st)))
             (this st) in
  let args := writer_create_args st nm style in
  let w := log_call (AgentsCreate (Writer.client (this st)) args) (world st) in
  match srv_agents_create server (sdk_calls (world st))
          (Writer.client (this st)) args with
  | Raise e => (Raise e, mkState o w)
  | Return a =>
      (Return (id a),
       mkState (Writer.set_agent (Some a) o)
         (say ("智能体 ID: " +:+ id a)
            (say ("✅ 写作智能体 '" +:+ nm +:+ "' 创建成功！") w)))
  end.
Proof.
  unfold Writer.create_writing_agent, writer_create_args, Writer.create_args.
  run_create st.
Qed.

Lemma local_create_run (server : Server) (st : State WriterLocal.WritingAgent)
    (nm : string) (style : option string) :
  WriterLocal.create_writing_agent server nm style st =
  let o := WriterLocal.set_writing_style
             (style_in_force style (WriterLocal.writing_style (this st)))
             (this st) in
  let args := local_create_args st nm style in
  let w := log_call (AgentsCreate (WriterLocal.client (this st)) args)
             (world st) in
  match srv_agents_create server (sdk_calls (world st))
          (WriterLocal.client (this st)) args with
  | Raise e => (Raise e, mkState o w)
  | Return a =>
      (Return (id a),
       mkState (WriterLocal.set_agent (Some a) o)
         (say ("智能体 ID: " +:+ id a)
            (say ("✅ 写作智能体 '" +:+ nm +:+ "' 创建成功！") w)))
  end.
Proof.
  unfold WriterLocal.create_writing_agent, local_create_args,
    WriterLocal.create_args.
  run_create st.
Qed.

(** X4: when the server creates the agent, create_writing_agent returns the
    id of the agent the server handed back and stores that agent in the
    object; the client and the current project are untouched, and exactly two
    lines are printed: the success line with the name and the id line. *)
Theorem create_agent_success (server : Server) (nm : string)
    (style : option string) (a : AgentState) :
  (∀ st : State Writer.WritingAgent,
     srv_agents_create server (sdk_calls (world st))
       (Writer.client (this st)) (writer_create_args st nm style) = Return a →
     let r := Writer.create_writing_agent server nm style st in
     r.1 = Return (id a)
     ∧ Writer.agent (this r.2) = Some a
     ∧ Writer.client (this r.2) = Writer.client (this st)
     ∧ Writer.current_project (this r.2) = Writer.current_project (this st)
     ∧ printed_by st r
       = ["✅ 写作智能体 '" +:+ nm +:+ "' 创建成功！"; "智能体 ID: " +:+ id a])
  ∧ (∀ st : State WriterLocal.WritingAgent,
     srv_agents_create server (sdk_calls (world st))
       (WriterLocal.client (this st)) (local_create_args st nm style)
     = Return a →
     let r := WriterLocal.create_writing_agent server nm style st in
     r.1 = Return (id a)
     ∧ WriterLocal.agent (this r.2) = Some a
     ∧ WriterLocal.client (this r.2) = WriterLocal.client (this st)
     ∧ WriterLocal.current_project (this r.2)
       = WriterLocal.current_project (this st)
     ∧ printed_by st r
       = ["✅ 写作智能体 '" +:+ nm +:+ "' 创建成功！"; "智能体 ID: " +:+ id a]).
Proof.
  split; intros st Hok r; subst r.
  - rewrite writer_create_run. cbv zeta. rewrite Hok.
    split_and!; try done. apply printed_by_say2.
  - rewrite local_create_run. cbv zeta. rewrite Hok.
    split_and!; try done. apply printed_by_say2.
Qed.

Lemma create_agent_success_witness :
  let a := mkAgentState "agent-1" "writer_agent_v3" in
  let r := Writer.create_writing_agent good_server "writer_agent_v3" None
             fresh_writer in
  srv_agents_create good_server (sdk_calls (world fresh_writer))
    (Writer.client (this fresh_writer))
    (writer_create_args fresh_writer "writer_agent_v3" None) = Return a
  ∧ r.1 = Return "agent-1"
  ∧ Writer.agent (this r.2) = Some a.
Proof.
  destruct (proj1 (create_agent_success good_server "writer_agent_v3" None
                     (mkAgentState "agent-1" "writer_agent_v3"))
              fresh_writer eq_refl) as (Hret & Hagent & _).
  split_and!; [reflexivity | exact Hret | exact Hagent].
Defined.

(** X5: when the server refuses to create the agent, create_writing_agent
    raises the server's exception and prints nothing; the object keeps the
    agent it had (none, or an earlier one), but a style passed in has already
    replaced the object's writing style. *)
Theorem create_agent_failure (server : Server) (nm : string)
    (style : option string) (e : exn) :
  (∀ st : State Writer.WritingAgent,
     srv_agents_create server (sdk_calls (world st))
       (Writer.client (this st)) (writer_create_args st nm style) = Raise e →
     let r := Writer.create_writing_agent server nm style st in
     r.1 = Raise e
     ∧ Writer.agent (this r.2) = Writer.agent (this st)
     ∧ printed_by st r = []
     ∧ (∀ s, style = Some s → s ≠ "" →
          Writer.writing_style (this r.2) = s))
  ∧ (∀ st : State WriterLocal.WritingAgent,
     srv_agents_create server (sdk_calls (world st))
       (WriterLocal.client (this st)) (local_create_args st nm style)
     = Raise e →
     let r := WriterLocal.create_writing_agent server nm style st in
     r.1 = Raise e
     ∧ WriterLocal.agent (this r.2) = WriterLocal.agent (this st)
     ∧ printed_by st r = []
     ∧ (∀ s, style = Some s → s ≠ "" →
          WriterLocal.writing_style (this r.2) = s)).
Proof.
  split; intros st Hfail r; subst r.
  - rewrite writer_create_run. cbv zeta. rewrite Hfail.
    split_and!; try done; [apply printed_by_log |].
    intros s -> Hs. by destruct s.
  - rewrite local_create_run. cbv zeta. rewrite Hfail.
    split_and!; try done; [apply printed_by_log |].
    intros s -> Hs. by destruct s.
Qed.

Lemma create_agent_failure_witness :
  let r := Writer.create_writing_agent dead_server "writer_agent_v3"
             (Some "轻松") ready_writer in
  srv_agents_create dead_server (sdk_calls (world ready_writer))
    (Writer.client (this ready_writer))
    (writer_create_args ready_writer "writer_agent_v3" (Some "轻松"))
  = Raise (ApiError "connection refused")
  ∧ r.1 = Raise (ApiError "connection refused")
  ∧ Writer.agent (this r.2) = Some agent1
  ∧ Writer.writing_style (this r.2) = "轻松".
Proof.
  destruct (proj1 (create_agent_failure dead_server "writer_agent_v3"
                     (Some "轻松") (ApiError "connection refused"))
              ready_writer eq_refl) as (Hret & Hagent & _ & Hstyle).
  split_and!; [reflexivity | exact Hret | exact Hagent |].
  apply (Hstyle "轻松" eq_refl). discriminate.
Defined.

Lemma issued_app (w w' : World) (l : list SdkCall) :
  sdk_calls w' = sdk_calls w ++ l → issued w w' = l.
Proof. intros E. unfold issued. rewrite E. apply drop_app_length. Qed.

Lemma read_reply_log {O} banner call reply (st : State O) :
  sdk_calls (world (read_reply banner call reply st).2)
  = sdk_calls (world st) ++ [call].
Proof.
  unfold read_reply.
  by destruct reply as [resp|e];
    [destruct (last (messages resp)) as [m|];
       [destruct (msg_content m) |] |].
Qed.

(** X6: the persona block sent at agent creation carries the writing style
    verbatim: the style argument when one is given and not empty, otherwise
    the style the object already has. *)
Theorem persona_carries_style (server : Server) (nm : string)
    (style : option string) :
  (∀ st : State Writer.WritingAgent,
     ∃ args persona rest,
       calls_of st (Writer.create_writing_agent server nm style st)
       = [AgentsCreate (Writer.client (this st)) args]
       ∧ ca_memory_blocks args = persona :: rest
       ∧ label persona = "persona"
       ∧ (∀ s, style = Some s → s ≠ "" → Substring s (value persona))
       ∧ (style = None ∨ style = Some "" →
          Substring (Writer.writing_style (this st)) (value persona)))
  ∧ (∀ st : State WriterLocal.WritingAgent,
     ∃ args persona rest,
       calls_of st (WriterLocal.create_writing_agent server nm style st)
       = [AgentsCreate (WriterLocal.client (this st)) args]
       ∧ ca_memory_blocks args = persona :: rest
       ∧ label persona = "persona"
       ∧ (∀ s, style = Some s → s ≠ "" → Substring s (value persona))
       ∧ (style = None ∨ style = Some "" →
          Substring (WriterLocal.writing_style (this st)) (value persona))).
Proof.
  split; intros st.
  - do 3 eexists. split; [apply writer_create_calls |].
    split; [reflexivity |]. split; [reflexivity |]. simpl.
    unfold Writer.persona_value. split.
    + intros s -> Hs. destruct s; [done |]. simpl. in_template.
    + intros [->| ->]; simpl; in_template.
  - do 3 eexists. split; [apply local_create_calls |].
    split; [reflexivity |]. split; [reflexivity |]. simpl.
    unfold WriterLocal.persona_value. split.
    + intros s -> Hs. destruct s; [done |]. simpl. in_template.
    + intros [->| ->]; simpl; in_template.
Qed.

Lemma persona_carries_style_witness :
  ∃ args persona rest,
    calls_of fresh_writer
      (Writer.create_writing_agent dead_server "w" (Some "轻松") fresh_writer)
    = [AgentsCreate cloud args]
    ∧ ca_memory_blocks args = persona :: rest
    ∧ "轻松" ≠ ""
    ∧ Substring "轻松" (value persona).
Proof.
  destruct (proj1 (persona_carries_style dead_server "w" (Some "轻松"))
              fresh_writer)
    as (args & persona & rest & Hcalls & Hblocks & _ & Hstyle & _).
  assert ("轻松" ≠ "") as Hne by discriminate.
  exists args, persona, rest.
  split_and!; [exact Hcalls | exact Hblocks | exact Hne |].
  exact (Hstyle "轻松" eq_refl Hne).
Defined.

(** X7: create_writing_agent followed by a prompt method issues exactly two
    SDK calls: the creation, and a messages.create addressed to the id of the
    agent the server has just handed back. The guard of the prompt method no
    longer fires. *)
Theorem prompts_go_to_created_agent (server : Server) (nm : string)
    (style : option string) (a : AgentState) :
  (∀ (st : State Writer.WritingAgent) call p,
     srv_agents_create server (sdk_calls (world st))
       (Writer.client (this st)) (writer_create_args st nm style) = Return a →
     prompt_of call = Some p →
     calls_of st
       ((Writer.create_writing_agent server nm style
         ≫= λ _, run_call server call) st)
     = [AgentsCreate (Writer.client (this st))
          (writer_create_args st nm style);
        MessagesCreate (Writer.client (this st)) (id a)
          [mkMessageCreate "user" p]])
  ∧ (∀ (st : State WriterLocal.WritingAgent) call,
     srv_agents_create server (sdk_calls (world st))
       (WriterLocal.client (this st)) (local_create_args st nm style)
     = Return a →
     calls_of st
       ((WriterLocal.create_writing_agent server nm style
         ≫= λ _, run_local_call server call) st)
     = [AgentsCreate (WriterLocal.client (this st))
          (local_create_args st nm style);
        MessagesCreate (WriterLocal.client (this st)) (id a)
          [mkMessageCreate "user" (local_prompt_of call)]]).
Proof.
  split.
  - intros st call p Hok Hp. unfold mbind, Py_bind, py_bind, calls_of.
    rewrite writer_create_run. cbv zeta. rewrite Hok.
    erewrite run_call_read_reply by (simpl; done).
    apply issued_app. rewrite read_reply_log. simpl.
    by rewrite <- app_assoc.
  - intros st call Hok. unfold mbind, Py_bind, py_bind, calls_of.
    rewrite local_create_run. cbv zeta. rewrite Hok.
    erewrite run_local_call_read_reply by (simpl; done).
    apply issued_app. rewrite read_reply_log. simpl.
    by rewrite <- app_assoc.
Qed.

Lemma prompts_go_to_created_agent_witness :
  let a := mkAgentState "agent-1" "w" in
  srv_agents_create good_server (sdk_calls (world fresh_writer))
    (Writer.client (this fresh_writer))
    (writer_create_args fresh_writer "w" None) = Return a
  ∧ prompt_of (GenerateOutline "台风" "standard")
    = Some (Writer.outline_prompt "台风" "standard")
  ∧ calls_of fresh_writer
      ((Writer.create_writing_agent good_server "w" None
        ≫= λ _, Writer.generate_outline good_server "台风" "standard")
         fresh_writer)
    = [AgentsCreate cloud (writer_create_args fresh_writer "w" None);
       MessagesCreate cloud "agent-1"
         [mkMessageCreate "user" (Writer.outline_prompt "台风" "standard")]].
Proof.
  split_and!; [reflexivity | reflexivity |].
  exact (proj1 (prompts_go_to_created_agent good_server "w" None
                  (mkAgentState "agent-1" "w"))
           fresh_writer (GenerateOutline "台风" "standard") _
           eq_refl eq_refl).
Defined.

(** X8: an object straight from the constructor, whatever the base URL and
    token, has no agent: every prompt method and start_writing_project raise
    the create-the-agent-first ValueError without touching anything, and
    get_writing_progress returns the dictionary with the single key error. *)
Theorem fresh_object_rejects_operations (server : Server)
    (url tok : option string) (st0 st1 : State unit)
    (o : Writer.WritingAgent) :
  Writer.__init__ url tok st0 = (Return o, st1) →
  ∀ w : World,
    let st := mkState o w in
    let stop := ValueError "请先创建写作智能体" in
    (∀ call, run_call server call st = (Raise stop, st))
    ∧ (∀ project_name project_type target_audience requirements,
       Writer.start_writing_project server project_name project_type
         target_audience requirements st = (Raise stop, st))
    ∧ Writer.get_writing_progress server st
      = (Return {[ "error" := "智能体未创建" ]}, st).
Proof.
  rewrite writer_init_run. cbv zeta. intros [= <- _] w. split_and!.
  - by intros [].
  - done.
  - done.
Qed.

Lemma fresh_object_rejects_operations_witness :
  ∃ o st1,
    Writer.__init__ None None (mkState () bare_world) = (Return o, st1)
    ∧ Writer.research_topic good_server "台风" "medium" (mkState o (world st1))
      = (Raise (ValueError "请先创建写作智能体"), mkState o (world st1)).
Proof.
  eexists _, _. split; [reflexivity |].
  exact (proj1 (fresh_object_rejects_operations good_server None None
                  (mkState () bare_world) _ _ eq_refl _)
           (ResearchTopic "台风" "medium")).
Defined.

(** X9: in writing_agent_local.py the model and embedding used at agent
    creation follow from how the object was constructed: with a token the
    OpenAI pair, without one (or with an empty one) the DeepSeek model with
    the Ollama embedding, whatever name and style are passed later. *)
Theorem local_models_follow_token (server : Server)
    (url tok : option string) (st0 st1 : State unit)
    (o : WriterLocal.WritingAgent) :
  WriterLocal.__init__ url tok st0 = (Return o, st1) →
  ∀ (w : World) nm style,
    let st := mkState o w in
    ∃ args,
      calls_of st (WriterLocal.create_writing_agent server nm style st)
      = [AgentsCreate (WriterLocal.client o) args]
      ∧ (opt_str_truthy tok = true →
         ca_model args = "openai/gpt-4o-mini"
         ∧ ca_embedding args = "openai/text-embedding-3-small")
      ∧ (opt_str_truthy tok = false →
         ca_model args = "deepseek/deepseek-chat"
         ∧ ca_embedding args = "ollama/nomic-embed-text:latest").
Proof.
  rewrite local_init_run. intros Hinit w nm style st. subst st.
  eexists. split; [apply local_create_calls |]. simpl.
  destruct (opt_str_truthy tok); simplify_eq/=; split; intros; done.
Qed.

Lemma local_models_follow_token_witness :
  ∃ o st1 args,
    WriterLocal.__init__ (Some "http://localhost:8283") None
      (mkState () bare_world) = (Return o, st1)
    ∧ opt_str_truthy None = false
    ∧ calls_of (mkState o (world st1))
        (WriterLocal.create_writing_agent dead_server "writer_agent_v7" None
           (mkState o (world st1)))
      = [AgentsCreate (WriterLocal.client o) args]
    ∧ ca_model args = "deepseek/deepseek-chat".
Proof.
  destruct (local_models_follow_token dead_server
              (Some "http://localhost:8283") None (mkState () bare_world)
              _ _ eq_refl (log_call (NewLetta local_letta) bare_world)
              "writer_agent_v7" None)
    as (args & Hcalls & _ & Hlocal).
  eexists _, _, args.
  split_and!; [reflexivity | reflexivity | exact Hcalls |].
  exact (proj1 (Hlocal eq_refl)).
Defined.

(** *** Reading the progress and starting a project *)

(** X10: when the block is retrieved, get_writing_progress returns the
    block's value under current_project together with the stored agent's id
    and name, and no error key. In general the returned dictionary has the
    key error exactly when there is no agent or the retrieval raised. *)
Theorem progress_dictionary (server : Server) :
  (∀ (st : State Writer.WritingAgent) (d : gmap string string),
     (Writer.get_writing_progress server st).1 = Return d →
     let fetched a :=
       srv_blocks_retrieve server (sdk_calls (world st))
         (Writer.client (this st)) (id a) "current_project" in
     (∀ a b, Writer.agent (this st) = Some a → fetched a = Return b →
        d !! "current_project" = Some (block_value b)
        ∧ d !! "agent_id" = Some (id a)
        ∧ d !! "agent_name" = Some (name a)
        ∧ d !! "error" = None)
     ∧ (is_Some (d !! "error")
        ↔ Writer.agent (this st) = None
          ∨ ∃ a e, Writer.agent (this st) = Some a ∧ fetched a = Raise e))
  ∧ (∀ (st : State WriterLocal.WritingAgent) (d : gmap string string),
     (WriterLocal.get_writing_progress server st).1 = Return d →
     let fetched a :=
       srv_blocks_retrieve server (sdk_calls (world st))
         (WriterLocal.client (this st)) (id a) "current_project" in
     (∀ a b, WriterLocal.agent (this st) = Some a → fetched a = Return b →
        d !! "current_project" = Some (block_value b)
        ∧ d !! "agent_id" = Some (id a)
        ∧ d !! "agent_name" = Some (name a)
        ∧ d !! "error" = None)
     ∧ (is_Some (d !! "error")
        ↔ WriterLocal.agent (this st) = None
          ∨ ∃ a e, WriterLocal.agent (this st) = Some a
                   ∧ fetched a = Raise e)).
Proof.
  split; intros st d.
  - rewrite writer_progress_run.
    destruct (Writer.agent (this st)) as [a|]; cbv zeta.
    + destruct (srv_blocks_retrieve _ _ _ _ _) as [b|e] eqn:Hr; simpl;
        intros [= <-]; split.
      * intros a' b' [= <-] Hb. rewrite Hr in Hb. simplify_eq.
        split_and!; reflexivity.
      * split; [intros [v Hv]; discriminate Hv |].
        intros [|(a' & e' & [= <-] & He)]; [done |].
        rewrite Hr in He. done.
      * intros a' b' [= <-] Hb. rewrite Hr in Hb. done.
      * split; [| by eexists]. intros _. right. by exists a, e.
    + simpl. intros [= <-]. split; [done |].
      split; [by left | by eexists].
  - rewrite local_progress_run.
    destruct (WriterLocal.agent (this st)) as [a|]; cbv zeta.
    + destruct (srv_blocks_retrieve _ _ _ _ _) as [b|e] eqn:Hr; simpl;
        intros [= <-]; split.
      * intros a' b' [= <-] Hb. rewrite Hr in Hb. simplify_eq.
        split_and!; reflexivity.
      * split; [intros [v Hv]; discriminate Hv |].
        intros [|(a' & e' & [= <-] & He)]; [done |].
        rewrite Hr in He. done.
      * intros a' b' [= <-] Hb. rewrite Hr in Hb. done.
      * split; [| by eexists]. intros _. right. by exists a, e.
    + simpl. intros [= <-]. split; [done |].
      split; [by left | by eexists].
Qed.

Lemma progress_dictionary_witness :
  ∃ d : gmap string string,
    (Writer.get_writing_progress good_server ready_writer).1 = Return d
    ∧ Writer.agent (this ready_writer) = Some agent1
    ∧ srv_blocks_retrieve good_server (sdk_calls (world ready_writer))
        (Writer.client (this ready_writer)) (id agent1) "current_project"
      = Return (mkBlock "写作项目")
    ∧ d !! "current_project" = Some "写作项目"
    ∧ d !! "error" = None.
Proof.
  eexists. split; [reflexivity |].
  destruct (proj1 (proj1 (progress_dictionary good_server)
                     ready_writer _ eq_refl)
              agent1 (mkBlock "写作项目") eq_refl eq_refl)
    as (Hproj & _ & _ & Herr).
  split_and!; [reflexivity | reflexivity | exact Hproj | exact Herr].
Defined.

(** X11: get_writing_progress leaves the object and standard output alone
    and issues at most one SDK call: none without an agent, otherwise one
    blocks.retrieve of the block current_project of the stored agent. *)
Theorem progress_footprint (server : Server) :
  (∀ st : State Writer.WritingAgent,
     let r := Writer.get_writing_progress server st in
     this r.2 = this st
     ∧ printed_by st r = []
     ∧ calls_of st r
       = match Writer.agent (this st) with
         | None => []
         | Some a => [BlocksRetrieve (Writer.client (this st)) (id a)
                        "current_project"]
         end)
  ∧ (∀ st : State WriterLocal.WritingAgent,
     let r := WriterLocal.get_writing_progress server st in
     this r.2 = this st
     ∧ printed_by st r = []
     ∧ calls_of st r
       = match WriterLocal.agent (this st) with
         | None => []
         | Some a => [BlocksRetrieve (WriterLocal.client (this st)) (id a)
                        "current_project"]
         end).
Proof.
  split; intros st r; subst r.
  - rewrite writer_progress_run.
    destruct (Writer.agent (this st)) as [a|]; cbv zeta;
      [destruct (srv_blocks_retrieve _ _ _ _ _) |]; simpl;
      split_and!; try done; unfold calls_of; simpl;
      auto using printed_by_log, printed_by_same, issued_log, issued_same.
  - rewrite local_progress_run.
    destruct (WriterLocal.agent (this st)) as [a|]; cbv zeta;
      [destruct (srv_blocks_retrieve _ _ _ _ _) |]; simpl;
      split_and!; try done; unfold calls_of; simpl;
      auto using printed_by_log, printed_by_same, issued_log, issued_same.
Qed.

(** X12: with an agent, start_writing_project changes nothing of the object
    but current_project (client, agent and writing style stay), and prints
    the three project lines; when the block update raised, the failure line
    comes first. *)
Theorem start_project_effects (server : Server) :
  (∀ (st : State Writer.WritingAgent) a project_name project_type
       target_audience requirements,
     Writer.agent (this st) = Some a →
     let r := Writer.start_writing_project server project_name project_type
                target_audience requirements st in
     let updated :=
       srv_blocks_modify server (sdk_calls (world st))
         (Writer.client (this st)) (id a) "current_project"
         (Writer.project_info project_name project_type target_audience
            requirements (clock (world st))) false in
     let lines := ["📝 开始写作项目：" +:+ project_name;
                   "项目类型：" +:+ project_type;
                   "目标读者：" +:+ target_audience] in
     Writer.client (this r.2) = Writer.client (this st)
     ∧ Writer.agent (this r.2) = Some a
     ∧ Writer.writing_style (this r.2) = Writer.writing_style (this st)
     ∧ printed_by st r
       = match updated with
         | Return _ => lines
         | Raise e => ("更新记忆块失败: " +:+ exn_str e) :: lines
         end)
  ∧ (∀ (st : State WriterLocal.WritingAgent) a project_name project_type
       target_audience requirements,
     WriterLocal.agent (this st) = Some a →
     let r := WriterLocal.start_writing_project server project_name
                project_type target_audience requirements st in
     let updated :=
       srv_blocks_modify server (sdk_calls (world st))
         (WriterLocal.client (this st)) (id a) "current_project"
         (WriterLocal.project_info project_name project_type target_audience
            requirements (clock (world st))) false in
     let lines := ["📝 开始写作项目：" +:+ project_name;
                   "项目类型：" +:+ project_type;
                   "目标读者：" +:+ target_audience] in
     WriterLocal.client (this r.2) = WriterLocal.client (this st)
     ∧ WriterLocal.agent (this r.2) = Some a
     ∧ WriterLocal.writing_style (this r.2)
       = WriterLocal.writing_style (this st)
     ∧ printed_by st r
       = match updated with
         | Return _ => lines
         | Raise e => ("更新记忆块失败: " +:+ exn_str e) :: lines
         end).
Proof.
  split; intros st a pn pt ta rq Ha; cbv zeta.
  - erewrite writer_start_run by done. cbv zeta.
    rewrite writer_update_run, Ha. cbv zeta.
    split_and!; try done.
    unfold printed_by.
    destruct (srv_blocks_modify _ _ _ _ _ _ _); simpl;
      rewrite <- !app_assoc; apply drop_app_length.
  - erewrite local_start_run by done. cbv zeta.
    rewrite local_update_run, Ha. cbv zeta.
    split_and!; try done.
    unfold printed_by.
    destruct (srv_blocks_modify _ _ _ _ _ _ _); simpl;
      rewrite <- !app_assoc; apply drop_app_length.
Qed.

Lemma start_project_effects_witness :
  let r := Writer.start_writing_project good_server "台风问题" "新闻稿" "大众"
             "" ready_writer in
  Writer.agent (this ready_writer) = Some agent1
  ∧ Writer.agent (this r.2) = Some agent1
  ∧ printed_by ready_writer r
    = ["📝 开始写作项目：" +:+ "台风问题"; "项目类型：" +:+ "新闻稿";
       "目标读者：" +:+ "大众"].
Proof.
  destruct (proj1 (start_project_effects good_server)
              ready_writer agent1 "台风问题" "新闻稿" "大众" "" eq_refl)
    as (_ & Hagent & _ & Hout).
  split_and!; [reflexivity | exact Hagent | exact Hout].
Defined.

(** X13: the project description written to the block names the project,
    its type and its audience verbatim and carries the start time formatted
    as year-month-day hour:minute:second; the requirements line holds the
    requirements verbatim, or 无 when they are empty. *)
Theorem project_info_contents (project_name project_type target_audience
    requirements : string) (now : datetime) :
  let info := Writer.project_info project_name project_type target_audience
                requirements now in
  WriterLocal.project_info project_name project_type target_audience
    requirements now = info
  ∧ Substring ("- 项目名称：" +:+ project_name +:+ LF) info
  ∧ Substring ("- 项目类型：" +:+ project_type +:+ LF) info
  ∧ Substring ("- 目标读者：" +:+ target_audience +:+ LF) info
  ∧ Substring ("- 开始时间：" +:+ strftime now +:+ LF) info
  ∧ (requirements = "" → Substring ("- 特殊要求：无" +:+ LF) info)
  ∧ (requirements ≠ "" →
     Substring ("- 特殊要求：" +:+ requirements +:+ LF) info).
Proof.
  cbv zeta. split; [reflexivity |].
  assert (
    Writer.project_info project_name project_type target_audience
      requirements now
    = (LF +:+ "写作项目信息：" +:+ LF)
      +:+ ("- 项目名称：" +:+ project_name +:+ LF)
      +:+ ("- 项目类型：" +:+ project_type +:+ LF)
      +:+ ("- 目标读者：" +:+ target_audience +:+ LF)
      +:+ ("- 特殊要求：" +:+ str_or requirements "无" +:+ LF)
      +:+ ("- 开始时间：" +:+ strftime now +:+ LF)) as E.
  { unfold Writer.project_info, LF. rewrite !str_app_assoc. reflexivity. }
  rewrite E. split_and!.
  - apply Substring_app_r, Substring_app_l, Substring_refl.
  - do 2 apply Substring_app_r. apply Substring_app_l, Substring_refl.
  - do 3 apply Substring_app_r. apply Substring_app_l, Substring_refl.
  - do 5 apply Substring_app_r. apply Substring_refl.
  - intros ->. do 4 apply Substring_app_r. apply Substring_app_l.
    apply Substring_refl.
  - intros Hreq. do 4 apply Substring_app_r. apply Substring_app_l.
    unfold str_or. destruct requirements; [done |]. apply Substring_refl.
Qed.

Lemma project_info_contents_witness :
  "" = ""
  ∧ Substring ("- 特殊要求：无" +:+ LF)
      (Writer.project_info "台风问题" "新闻稿" "大众" "" noon).
Proof.
  split; [reflexivity |].
  exact (proj1 (proj2 (proj2 (proj2 (proj2 (proj2
           (project_info_contents "台风问题" "新闻稿" "大众" "" noon))))))
           eq_refl).
Defined.

(** *** The remaining prompts *)

(** X14: polish_content's prompt contains the content verbatim. With no
    focus areas, given as None or as an empty list, the prompt is the same
    and has no focus line; with focus areas it contains the focus line, made
    of the areas joined by a comma and a space, so each area occurs
    verbatim. *)
Theorem polish_prompt_focus (content : string) :
  (∀ focus_areas, Substring content (Writer.polish_prompt content focus_areas))
  ∧ Writer.polish_prompt content (Some [])
    = Writer.polish_prompt content None
  ∧ Writer.focus_text None = ""
  ∧ (∀ areas, areas ≠ [] →
     let p := Writer.polish_prompt content (Some areas) in
     Substring (LF +:+ "重点润色方面：" +:+ join ", " areas) p
     ∧ ∀ area, area ∈ areas → Substring area p).
Proof.
  split_and!.
  - intros. unfold Writer.polish_prompt. in_template.
  - reflexivity.
  - reflexivity.
  - intros areas Hne p. subst p. unfold Writer.polish_prompt.
    assert (Writer.focus_text (Some areas)
            = LF +:+ "重点润色方面：" +:+ join ", " areas) as ->.
    { destruct areas; [done |]. unfold Writer.focus_text, LF. simpl.
      by rewrite <- str_app_assoc. }
    split.
    + do 3 apply Substring_app_r. apply Substring_app_l, Substring_refl.
    + intros area Hin. do 3 apply Substring_app_r. apply Substring_app_l.
      do 2 apply Substring_app_r.
      rewrite <- (list_fmap_id areas).
      apply (Substring_join ", " Datatypes.id); [done | apply Substring_refl].
Qed.

Lemma polish_prompt_focus_witness :
  ["语言流畅度"; "逻辑性"] ≠ []
  ∧ "逻辑性" ∈ ["语言流畅度"; "逻辑性"]
  ∧ Substring "逻辑性"
      (Writer.polish_prompt "正文" (Some ["语言流畅度"; "逻辑性"])).
Proof.
  assert (["语言流畅度"; "逻辑性"] ≠ []) as Hne by discriminate.
  assert ("逻辑性" ∈ ["语言流畅度"; "逻辑性"]) as Hin by repeat constructor.
  split_and!; [exact Hne | exact Hin |].
  exact (proj2 (proj2 (proj2 (proj2 (polish_prompt_focus "正文")))
                  ["语言流畅度"; "逻辑性"] Hne)
           "逻辑性" Hin).
Defined.

(** X15: adjust_style's prompt contains the content and names the target
    style both in its opening line and in its first requirement; the prompt
    of write_article is the topic between two fixed pieces of text. *)
Theorem style_and_article_prompts (content target_style topic : string) :
  let p := Writer.style_prompt content target_style in
  Substring content p
  ∧ Substring ("调整为 " +:+ target_style +:+ " 的写作风格") p
  ∧ Substring ("1. 语言风格：" +:+ target_style +:+ LF) p
  ∧ UltimateSimple.article_prompt topic = "写一篇关于 " +:+ topic +:+ " 的文章".
Proof.
  cbv zeta. split_and!.
  - unfold Writer.style_prompt. in_template.
  - exists (LF +:+ "请将以下内容"),
      ("：" +:+ LF +:+ LF +:+ content +:+ LF +:+ LF
       +:+ "风格调整要求：" +:+ LF +:+ "1. 语言风格：" +:+ target_style +:+ "
2. 保持原文的核心信息和逻辑结构
3. 调整语调和表达方式以符合目标风格
4. 确保风格转换自然，不显突兀
5. 保持内容的专业性和准确性

请直接输出调整后的内容。
").
    unfold Writer.style_prompt, LF. rewrite !str_app_assoc. reflexivity.
  - exists (LF +:+ "请将以下内容调整为 " +:+ target_style +:+ " 的写作风格："
            +:+ LF +:+ LF +:+ content +:+ LF +:+ LF +:+ "风格调整要求：" +:+ LF),
      "2. 保持原文的核心信息和逻辑结构
3. 调整语调和表达方式以符合目标风格
4. 确保风格转换自然，不显突兀
5. 保持内容的专业性和准确性

请直接输出调整后的内容。
".
    unfold Writer.style_prompt, LF. rewrite !str_app_assoc. reflexivity.
  - reflexivity.
Qed.

(** *** [create_writer] *)

(** X16: without the API key create_writer prints exactly its four guidance
    lines before raising and leaves the environment as it was. With the key,
    it prints nothing: a failing agent creation propagates after the client
    was built, and a successful one returns the local client together with
    the agent the server handed back. *)
Theorem create_writer_effects (server : Server) (st : State unit) :
  let key := environ (world st) !! "DEEPSEEK_API_KEY" in
  let r := UltimateSimple.create_writer server st in
  let created :=
    srv_agents_create server
      (sdk_calls (world st) ++ [NewLetta UltimateSimple.local_client])
      UltimateSimple.local_client UltimateSimple.create_args in
  environ (world r.2) = environ (world st)
  ∧ (opt_str_truthy key = false →
     printed_by st r
     = ["❌ 未找到 DEEPSEEK_API_KEY 环境变量";
        "💡 请先设置环境变量：";
        "   export DEEPSEEK_API_KEY='sk-your-api-key-here'";
        "   然后重新启动 Letta 服务器"])
  ∧ (opt_str_truthy key = true →
     printed_by st r = []
     ∧ (∀ e, created = Raise e → r.1 = Raise e)
     ∧ (∀ a, created = Return a →
          r.1 = Return (UltimateSimple.local_client, a))).
Proof.
  intros key r created. subst r created. rewrite create_writer_run.
  fold key. destruct (opt_str_truthy key); cbv zeta.
  - destruct (srv_agents_create _ _ _ _) as [a|e]; simpl;
      (split; [done |]); (split; [done |]); intros _;
      (split; [apply drop_all |]); split; intros; by simplify_eq.
  - simpl. split; [done |]. split; [| done]. intros _.
    unfold printed_by. simpl. rewrite <- !app_assoc. apply drop_app_length.
Qed.

Lemma create_writer_effects_witness :
  let st := mkState () bare_world in
  opt_str_truthy (environ (world st) !! "DEEPSEEK_API_KEY") = false
  ∧ printed_by st (UltimateSimple.create_writer good_server st)
    = ["❌ 未找到 DEEPSEEK_API_KEY 环境变量";
       "💡 请先设置环境变量：";
       "   export DEEPSEEK_API_KEY='sk-your-api-key-here'";
       "   然后重新启动 Letta 服务器"].
Proof.
  split; [reflexivity |].
  exact (proj1 (proj2 (create_writer_effects good_server
                         (mkState () bare_world))) eq_refl).
Defined.

(** *** The demonstration [main] *)

(** A [try] whose handler only prints always completes. *)
Lemma try_print_completes {O} (body : Py O unit) (f : exn → string)
    (s : State O) :
  try_except body (λ e, print (f e)) s =
  match body s with
  | (Return _, s') => (Return (), s')
  | (Raise e, s') => (Return (), mkState (this s') (say (f e) (world s')))
  end.
Proof. unfold try_except, print. by destruct (body s) as [[[]|e] s']. Qed.

(** The frame common to both [main]s: announce, construct, run the guarded
    body on the new object, sign off. *)
Lemma demo_frame {O} (intro outro : string) (init : Py unit O)
    (body : Py O unit) (f : exn → string) (st st1 : State unit) (o : O) :
  init (mkState () (say intro (world st))) = (Return o, st1) →
  (_ ← print intro;
   writer ← init;
   _ ← with_local writer (try_except body (λ e, print (f e)));
   print outro) st
  = (Return (),
     mkState ()
       (say outro
          (world (try_except body (λ e, print (f e))
                    (mkState o (world st1))).2))).
Proof.
  intros Hinit. destruct st as [[] w]. simpl in Hinit.
  cbv [mbind Py_bind py_bind print with_local try_except]. simpl.
  rewrite Hinit. simpl.
  by destruct (body _) as [[[]|e] s'].
Qed.

Lemma writer_main_run (server : Server)
    (json_dumps : gmap string string → string) (st : State unit) :
  let c := mkLetta None (Some WriterDemo.demo_token) None in
  let o := Writer.mkWritingAgent c None "专业、清晰、有逻辑性" None in
  let w := log_call (NewLetta c)
             (say "🚀 启动写作智能体演示..." (world st)) in
  WriterDemo.main server json_dumps st
  = (Return (),
     mkState ()
       (say (LF +:+ "✅ 写作智能体演示完成！")
          (world (try_except (WriterDemo.main_try server json_dumps)
                    (λ e, print ("❌ 错误: " +:+ exn_str e))
                    (mkState o w)).2))).
Proof.
  cbv zeta. unfold WriterDemo.main.
  erewrite demo_frame by (rewrite writer_init_run; reflexivity).
  reflexivity.
Qed.

Lemma local_main_run (server : Server)
    (json_dumps : gmap string string → string) (st : State unit) :
  let c := mkLetta (Some "http://localhost:8283") None (Some 120%Z) in
  let o := WriterLocal.mkWritingAgent c "deepseek/deepseek-chat"
             "ollama/nomic-embed-text:latest" None "专业、清晰、有逻辑性" None in
  let w := log_call (NewLetta c)
             (say "🚀 启动写作智能体演示..." (world st)) in
  LocalDemo.main server json_dumps st
  = (Return (),
     mkState ()
       (say (LF +:+ "✅ 写作智能体演示完成！")
          (world (try_except (LocalDemo.main_try server json_dumps)
                    (λ e, print ("❌ 错误: " +:+ exn_str e))
                    (mkState o w)).2))).
Proof.
  cbv zeta. unfold LocalDemo.main.
  erewrite demo_frame by (rewrite local_init_run; reflexivity).
  reflexivity.
Qed.

(** X17: main never raises, whatever the server does and however the
    progress is rendered: every exception of its steps is caught, and the
    last line it prints is always the completion line. *)
Theorem main_always_completes (server : Server)
    (json_dumps : gmap string string → string) (st : State unit) :
  let done := LF +:+ "✅ 写作智能体演示完成！" in
  ((WriterDemo.main server json_dumps st).1 = Return ()
   ∧ last (stdout (world (WriterDemo.main server json_dumps st).2))
     = Some done)
  ∧ ((LocalDemo.main server json_dumps st).1 = Return ()
     ∧ last (stdout (world (LocalDemo.main server json_dumps st).2))
       = Some done).
Proof.
  cbv zeta. rewrite writer_main_run, local_main_run. cbv zeta. simpl.
  split; (split; [done | apply last_snoc]).
Qed.

(** X18: when the server refuses to create the agent, main makes exactly two
    SDK calls, the construction of the client and the agent creation, and
    prints exactly three lines: the start line, the error line with the
    exception's text, and the completion line. No later step runs. *)
Theorem main_stops_when_creation_fails (server : Server)
    (json_dumps : gmap string string → string) (st : State unit) (e : exn) :
  let start := "🚀 启动写作智能体演示..." in
  let done := LF +:+ "✅ 写作智能体演示完成！" in
  (let c := mkLetta None (Some WriterDemo.demo_token) None in
   let args := Writer.create_args "writer_agent_v3"
                 "专业、清晰、有逻辑性，适合学术和商业写作" in
   let r := WriterDemo.main server json_dumps st in
   srv_agents_create server (sdk_calls (world st) ++ [NewLetta c]) c args
   = Raise e →
   calls_of st r = [NewLetta c; AgentsCreate c args]
   ∧ printed_by st r = [start; "❌ 错误: " +:+ exn_str e; done])
  ∧ (let c := mkLetta (Some "http://localhost:8283") None (Some 120%Z) in
     let args := mkCreateAgent "writer_agent_v7"
                   (WriterLocal.memory_blocks
                      "专业、清晰、有逻辑性，适合新闻写作")
                   "deepseek/deepseek-chat" "ollama/nomic-embed-text:latest"
                   (Some ["web_search"]) in
     let r := LocalDemo.main server json_dumps st in
     srv_agents_create server (sdk_calls (world st) ++ [NewLetta c]) c args
     = Raise e →
     calls_of st r = [NewLetta c; AgentsCreate c args]
     ∧ printed_by st r = [start; "❌ 错误: " +:+ exn_str e; done]).
Proof.
  cbv zeta. split; intros Hfail.
  - rewrite writer_main_run. cbv zeta. rewrite try_print_completes.
    unfold WriterDemo.main_try, mbind, Py_bind, py_bind.
    rewrite writer_create_run. cbv zeta. simpl.
    unfold writer_create_args, style_in_force. simpl.
    rewrite Hfail. simpl. split.
    + apply issued_app. simpl. by rewrite <- app_assoc.
    + unfold printed_by. simpl. rewrite <- !app_assoc. apply drop_app_length.
  - rewrite local_main_run. cbv zeta. rewrite try_print_completes.
    unfold LocalDemo.main_try, mbind, Py_bind, py_bind.
    rewrite local_create_run. cbv zeta. simpl.
    unfold local_create_args, style_in_force. simpl.
    rewrite Hfail. simpl. split.
    + apply issued_app. simpl. by rewrite <- app_assoc.
    + unfold printed_by. simpl. rewrite <- !app_assoc. apply drop_app_length.
Qed.

Lemma main_stops_when_creation_fails_witness :
  let c := mkLetta None (Some WriterDemo.demo_token) None in
  let args := Writer.create_args "writer_agent_v3"
                "专业、清晰、有逻辑性，适合学术和商业写作" in
  let st := mkState () bare_world in
  srv_agents_create dead_server (sdk_calls (world st) ++ [NewLetta c]) c args
  = Raise (ApiError "connection refused")
  ∧ printed_by st (WriterDemo.main dead_server json_dumps_progress st)
    = ["🚀 启动写作智能体演示..."; "❌ 错误: " +:+ "connection refused";
       LF +:+ "✅ 写作智能体演示完成！"].
Proof.
  split; [reflexivity |].
  exact (proj2 (proj1 (main_stops_when_creation_fails dead_server
                         json_dumps_progress (mkState () bare_world)
                         (ApiError "connection refused")) eq_refl)).
Defined.

(** X19: the content a prompt method returns can be fed to the next one, as
    main does from expand_content to polish_content to adjust_style: when the
    first reply's last message has a content, the second prompt is built
    from the text of that content, both calls go to the same agent through
    the same client, and no other SDK call is made. *)
Theorem reply_text_feeds_next_prompt (server : Server)
    (st : State Writer.WritingAgent) (a : AgentState) (first : writer_call)
    (next : string → writer_call) (p1 p2 : string) (resp : LettaResponse)
    (m : Message) (c : content_value) :
  Writer.agent (this st) = Some a →
  prompt_of first = Some p1 →
  reply_to server st (Writer.client (this st)) (id a) p1 = Return resp →
  last (messages resp) = Some m →
  msg_content m = Some c →
  prompt_of (next (content_str c)) = Some p2 →
  calls_of st
    ((run_call server first
      ≫= λ text, run_call server (next (content_str text))) st)
  = [MessagesCreate (Writer.client (this st)) (id a)
       [mkMessageCreate "user" p1];
     MessagesCreate (Writer.client (this st)) (id a)
       [mkMessageCreate "user" p2]].
Proof.
  intros Ha Hp1 Hr Hm Hc Hp2. unfold mbind, Py_bind, py_bind, calls_of.
  erewrite run_call_read_reply by done.
  unfold read_reply at 1. rewrite Hr, Hm, Hc.
  erewrite run_call_read_reply by (simpl; done).
  apply issued_app. rewrite read_reply_log. simpl.
  by rewrite <- app_assoc.
Qed.

Lemma reply_text_feeds_next_prompt_witness :
  Writer.agent (this ready_writer) = Some agent1
  ∧ last (messages (mkLettaResponse [thinking; answer])) = Some answer
  ∧ msg_content answer = Some (Text "正文")
  ∧ calls_of ready_writer
      ((Writer.expand_content good_server "台风问题概述" ["如何应对"] 300
        ≫= λ text,
             Writer.polish_content good_server (content_str text) None)
         ready_writer)
    = [MessagesCreate cloud "agent-1"
         [mkMessageCreate "user"
            (Writer.expand_prompt "台风问题概述" ["如何应对"] 300)];
       MessagesCreate cloud "agent-1"
         [mkMessageCreate "user" (Writer.polish_prompt "正文" None)]].
Proof.
  split_and!; [reflexivity | reflexivity | reflexivity |].
  exact (reply_text_feeds_next_prompt good_server ready_writer agent1
           (ExpandContent "台风问题概述" ["如何应对"] 300)
           (λ text, PolishContent text None) _ _
           (mkLettaResponse [thinking; answer]) answer (Text "正文")
           eq_refl eq_refl eq_refl eq_refl eq_refl eq_refl).
Defined.

(** *** The demonstrations on concrete servers *)

Example writer_main_good_calls :
  length (calls_of (mkState () bare_world)
            (WriterDemo.main good_server json_dumps_progress
               (mkState () bare_world))) = 9.
Proof. reflexivity. Qed.

Example local_main_good_output :
  last (printed_by fresh_local
          (LocalDemo.main_try good_server json_dumps_progress fresh_local))
  = Some ("{" +:+ LF
          +:+ "  " +:+ json_string "current_project" +:+ ": "
          +:+ json_string "写作项目" +:+ "," +:+ LF
          +:+ "  " +:+ json_string "agent_id" +:+ ": "
          +:+ json_string "agent-1" +:+ "," +:+ LF
          +:+ "  " +:+ json_string "agent_name" +:+ ": "
          +:+ json_string "writer_agent_v7" +:+ LF +:+ "}").
Proof. reflexivity. Qed.

Example local_main_flaky_output :
  printed_by (mkState () bare_world)
    (LocalDemo.main flaky_server json_dumps_progress (mkState () bare_world))
  = ["🚀 启动写作智能体演示...";
     "✅ 写作智能体 'writer_agent_v7' 创建成功！";
     "智能体 ID: agent-1";
     "更新记忆块失败: 503";
     "📝 开始写作项目：台风问题";
     "项目类型：新闻稿";
     "目标读者：大众";
     rule;
     "❌ 错误: 503";
     LF +:+ "✅ 写作智能体演示完成！"].
Proof. reflexivity. Qed.

(** *** [_update_memory_block] on its own *)

(** X20: _update_memory_block never raises and never changes the object.
    A successful update prints nothing; a failed one prints the failure line
    with the exception's text. Called without an agent it sends nothing: the
    attribute error of reading the id of None is caught like any other and
    printed. *)
Theorem update_swallows_failures (server : Server) :
  (∀ (st : State Writer.WritingAgent) block_label new_value,
     let r := Writer._update_memory_block server block_label new_value st in
     r.1 = Return ()
     ∧ this r.2 = this st
     ∧ (Writer.agent (this st) = None →
        calls_of st r = []
        ∧ printed_by st r
          = ["更新记忆块失败: "
             +:+ "'NoneType' object has no attribute 'id'"])
     ∧ (∀ a, Writer.agent (this st) = Some a →
        printed_by st r
        = match srv_blocks_modify server (sdk_calls (world st))
                  (Writer.client (this st)) (id a) block_label new_value
                  false with
          | Return _ => []
          | Raise e => ["更新记忆块失败: " +:+ exn_str e]
          end))
  ∧ (∀ (st : State WriterLocal.WritingAgent) block_label new_value,
     let r := WriterLocal._update_memory_block server block_label new_value
                st in
     r.1 = Return ()
     ∧ this r.2 = this st
     ∧ (WriterLocal.agent (this st) = None →
        calls_of st r = []
        ∧ printed_by st r
          = ["更新记忆块失败: "
             +:+ "'NoneType' object has no attribute 'id'"])
     ∧ (∀ a, WriterLocal.agent (this st) = Some a →
        printed_by st r
        = match srv_blocks_modify server (sdk_calls (world st))
                  (WriterLocal.client (this st)) (id a) block_label new_value
                  false with
          | Return _ => []
          | Raise e => ["更新记忆块失败: " +:+ exn_str e]
          end)).
Proof.
  split; intros st l v r; subst r.
  - rewrite writer_update_run.
    destruct (Writer.agent (this st)) as [a|]; cbv zeta.
    + destruct (srv_blocks_modify _ _ _ _ _ _ _) as [b|e] eqn:Hm; simpl;
        split_and!; try done; intros a' [= <-]; rewrite Hm;
        unfold printed_by; simpl; [apply drop_all | apply drop_app_length].
    + simpl. split_and!; try done. intros _. split.
      * unfold calls_of. simpl. rewrite issued_say. apply issued_same.
      * unfold printed_by. simpl. apply drop_app_length.
  - rewrite local_update_run.
    destruct (WriterLocal.agent (this st)) as [a|]; cbv zeta.
    + destruct (srv_blocks_modify _ _ _ _ _ _ _) as [b|e] eqn:Hm; simpl;
        split_and!; try done; intros a' [= <-]; rewrite Hm;
        unfold printed_by; simpl; [apply drop_all | apply drop_app_length].
    + simpl. split_and!; try done. intros _. split.
      * unfold calls_of. simpl. rewrite issued_say. apply issued_same.
      * unfold printed_by. simpl. apply drop_app_length.
Qed.

Lemma update_swallows_failures_witness :
  let r := Writer._update_memory_block good_server "current_project" "x"
             fresh_writer in
  Writer.agent (this fresh_writer) = None
  ∧ r.1 = Return ()
  ∧ calls_of fresh_writer r = []
  ∧ printed_by fresh_writer r
    = ["更新记忆块失败: " +:+ "'NoneType' object has no attribute 'id'"].
Proof.
  destruct (proj1 (update_swallows_failures good_server)
              fresh_writer "current_project" "x") as (Hret & _ & Hnone & _).
  destruct (Hnone eq_refl) as [Hcalls Hout].
  split_and!; [reflexivity | exact Hret | exact Hcalls | exact Hout].
Defined.
